(** * db-sync-monitoring: sampling loop, time-series store and comparison selection

    A shallow embedding of the three scripts that make up the
    sampling-and-comparison subsystem:

    - [scripts/db-sync-process-monitor.py]  (module [Monitor]),
    - [scripts/simple-db-sync-monitor.py]   (module [Simple]),
    - [scripts/regenerate-plots.py]         (module [Regenerate]),

    and the size report of [scripts/create-db-sync-stats.py] (module
    [Stats]).

    Python values are modelled as follows: [int] is [Z], [float] is an IEEE
    binary64 number ([PrimFloat.float]), [str] is [string], [None] in an
    optional position is [option], and an exception that leaves a function
    is the [Raise] branch of [Py.result].  The SQLite tables are lists of
    typed rows in rowid (insertion) order; the relational operators the
    queries use live in module [Sql].

    Outside the model: failures of the SQLite file itself (a locked or
    unwritable database), and integers beyond 64 bits, which SQLite
    cannot store; the progress marker comes from a PostgreSQL [bigint]
    column and the other integers are operating-system counters.  A
    [string] is a sequence of code points below 256, so text typed by
    the operator that uses other characters is outside the model too. *)

From Stdlib Require Import ZArith List String Ascii Bool Lia.
From Stdlib Require Import Sorting.Sorted Sorting.Permutation.
From Stdlib Require Import PrimFloat Uint63.
Import ListNotations.

Local Open Scope string_scope.
Local Open Scope list_scope.
Local Open Scope Z_scope.

(* ================================================================== *)
(** * Python builtins used by the scripts *)
(* ================================================================== *)

Module Py.

(** The exception classes that can reach the modelled code.
    [psutil.ZombieProcess] is a subclass of [NoSuchProcess] and is folded
    into it; [OtherError] stands for any other subclass of [Exception]
    (for instance [OSError] or [psutil.Error]). *)
Inductive exn : Type :=
| TypeError
| ValueError
| IndexError
| AttributeError
| NoSuchProcess
| AccessDenied
| OtherError.

Inductive result (A : Type) : Type :=
| Ok (a : A)
| Raise (e : exn).

Arguments Ok {A} a.
Arguments Raise {A} e.

Definition bind {A B : Type} (r : result A) (k : A -> result B) : result B :=
  match r with
  | Ok a => k a
  | Raise e => Raise e
  end.

Notation "x <- r ;; k" := (bind r (fun x => k))
  (at level 61, r at next level, right associativity).

(** A list comprehension [[f(x) for x in xs]]: elements are evaluated left
    to right and the first exception aborts the whole comprehension. *)
Fixpoint comprehension {A B : Type} (f : A -> result B) (xs : list A)
  : result (list B) :=
  match xs with
  | [] => Ok []
  | x :: xs' =>
      y <- f x ;;
      ys <- comprehension f xs' ;;
      Ok (y :: ys)
  end.

(** [str.isspace] on the code points below 256. *)
Definition isspace (c : ascii) : bool :=
  let n := N_of_ascii c in
  ((9 <=? n) && (n <=? 13) || (28 <=? n) && (n <=? 32)
   || (n =? 133) || (n =? 160))%N.

Fixpoint lstrip (s : string) : string :=
  match s with
  | EmptyString => EmptyString
  | String c s' => if isspace c then lstrip s' else s
  end.

Fixpoint rstrip (s : string) : string :=
  match s with
  | EmptyString => EmptyString
  | String c s' =>
      match rstrip s' with
      | EmptyString => if isspace c then EmptyString else String c EmptyString
      | r => String c r
      end
  end.

(** [s.strip()] *)
Definition strip (s : string) : string := rstrip (lstrip s).

(** [s.split(sep)] for a one-character separator: always at least one
    piece, empty pieces are kept. *)
Fixpoint split (sep : ascii) (s : string) : list string :=
  match s with
  | EmptyString => [EmptyString]
  | String c s' =>
      if Ascii.eqb c sep then EmptyString :: split sep s'
      else match split sep s' with
           | h :: t => String c h :: t
           | [] => [String c EmptyString]
           end
  end.

Definition is_digit (c : ascii) : bool :=
  let n := N_of_ascii c in ((48 <=? n) && (n <=? 57))%N.

Definition digit_val (c : ascii) : Z := Z.of_N (N_of_ascii c) - 48.

(** Decimal digits with single underscores allowed between digits. *)
Fixpoint parse_digits (s : string) (acc : Z) (after_digit : bool) : option Z :=
  match s with
  | EmptyString => if after_digit then Some acc else None
  | String c s' =>
      if is_digit c then parse_digits s' (acc * 10 + digit_val c) true
      else if Ascii.eqb c "_"
           then (if after_digit then parse_digits s' acc false else None)
           else None
  end.

(** The white space that [int] skips around a number: the white space
    of C ([\t\n\v\f\r] and the blank) and, above 127, the code points
    that [str.isspace] accepts.  The separators 28..31, which
    [str.strip] removes, are not skipped by [int]. *)
Definition int_space (c : ascii) : bool :=
  let n := N_of_ascii c in
  ((9 <=? n) && (n <=? 13) || (n =? 32) || (n =? 133) || (n =? 160))%N.

Fixpoint int_lstrip (s : string) : string :=
  match s with
  | EmptyString => EmptyString
  | String c s' => if int_space c then int_lstrip s' else s
  end.

Fixpoint int_rstrip (s : string) : string :=
  match s with
  | EmptyString => EmptyString
  | String c s' =>
      match int_rstrip s' with
      | EmptyString => if int_space c then EmptyString else String c EmptyString
      | r => String c r
      end
  end.

(** One optional sign, then the digits. *)
Definition parse_signed (t : string) : option Z :=
  match t with
  | EmptyString => None
  | String c r =>
      if Ascii.eqb c "+" then parse_digits r 0 false
      else if Ascii.eqb c "-" then option_map Z.opp (parse_digits r 0 false)
           else parse_digits t 0 false
  end.

Fixpoint count_digits (s : string) : N :=
  match s with
  | EmptyString => 0%N
  | String c s' => ((if is_digit c then 1 else 0) + count_digits s')%N
  end.

(** [sys.get_int_max_str_digits()], at its default. *)
Definition max_str_digits : N := 4300%N.

(** [int(s)] for a string argument, base 10: the white space of
    [int_space] around the number is ignored, then one optional sign and
    the digits; a number written with more than [max_str_digits] digits
    is refused.  Anything else is a [ValueError] too.  (Strings are
    sequences of code points below 256; decimal digits beyond that
    range, which Python also accepts, are outside the model.) *)
Definition int (s : string) : result Z :=
  let t := int_rstrip (int_lstrip s) in
  match parse_signed t with
  | Some z =>
      if (count_digits t <=? max_str_digits)%N then Ok z else Raise ValueError
  | None => Raise ValueError
  end.

(** [l[i]]: a negative index counts from the end of the list; an index
    outside [-len(l), len(l))] is an [IndexError]. *)
Definition getitem {A : Type} (l : list A) (i : Z) : result A :=
  let n := Z.of_nat (List.length l) in
  let j := if i <? 0 then i + n else i in
  if (0 <=? j) && (j <? n)
  then match nth_error l (Z.to_nat j) with
       | Some a => Ok a
       | None => Raise IndexError
       end
  else Raise IndexError.

(** [sub in s] on strings. *)
Definition contains (sub s : string) : bool :=
  match String.index 0 sub s with
  | Some _ => true
  | None => false
  end.

(** [sep.join(parts)] *)
Definition join (sep : string) (parts : list string) : string :=
  String.concat sep parts.

(** [float(z)] for the integers the scripts divide: byte counts and small
    constants, all below 2^63 in magnitude. *)
Definition float_of_int (z : Z) : float :=
  if z <? 0 then PrimFloat.opp (PrimFloat.of_uint63 (Uint63.of_Z (- z)))
  else PrimFloat.of_uint63 (Uint63.of_Z z).

(** [a / b] on two ints (true division).  The divisors in the scripts are
    powers of two, for which dividing the converted operands is the
    correctly rounded quotient. *)
Definition truediv_int (a b : Z) : float :=
  PrimFloat.div (float_of_int a) (float_of_int b).

(** [x / b] with a float on the left and an int on the right. *)
Definition truediv_float_int (x : float) (b : Z) : float :=
  PrimFloat.div x (float_of_int b).

(** Pieces of an f-string once its fields are evaluated.  The decimal
    rendering of a float is left symbolic: [FFloat x] is [str(x)] and
    [FFixed2 x] is [format(x, '.2f')]; [FExn e] is the message of a
    caught exception. *)
Inductive frag : Type :=
| FLit (s : string)
| FInt (z : Z)
| FFloat (x : float)
| FFixed2 (x : float)
| FExn (e : exn).

Definition line : Type := list frag.

(** [format(v, '.2f')] where [v] may be [None]: [NoneType.__format__]
    rejects a non-empty format spec with a [TypeError]. *)
Definition format_2f (v : option float) : result frag :=
  match v with
  | Some x => Ok (FFixed2 x)
  | None => Raise TypeError
  end.

(** [s.replace(old, new)] for a one-character [old]: every occurrence of
    the character is replaced, from left to right. *)
Fixpoint replace_char (old : ascii) (new : string) (s : string) : string :=
  match s with
  | EmptyString => EmptyString
  | String c s' =>
      if Ascii.eqb c old then String.append new (replace_char old new s')
      else String c (replace_char old new s')
  end.




End Py.

(* ================================================================== *)
(** * The relational operators of the SQLite queries *)
(* ================================================================== *)

Module Sql.

Section Operators.

Context {A K : Type}.
Variable key : A -> K.

(** [ORDER BY key]: the rows pass through SQLite's sorter, a merge sort
    that keeps rows with equal keys in the order they were fed to it.
    [leb k1 k2] says that [k1] may come before [k2]. *)
Variable leb : K -> K -> bool.

Fixpoint sorter_insert (x : A) (l : list A) : list A :=
  match l with
  | [] => [x]
  | y :: l' => if leb (key x) (key y) then x :: l else y :: sorter_insert x l'
  end.

Definition order_by (l : list A) : list A := fold_right sorter_insert [] l.

(** [SELECT DISTINCT key]: rows are scanned in rowid order and a row is
    dropped when its key was already produced by an earlier row. *)
Variable eqb : K -> K -> bool.

Fixpoint distinct_scan (seen : list K) (l : list A) : list A :=
  match l with
  | [] => []
  | r :: l' =>
      if existsb (eqb (key r)) seen then distinct_scan seen l'
      else r :: distinct_scan (key r :: seen) l'
  end.

Definition select_distinct (l : list A) : list A := distinct_scan [] l.

(** [WHERE key IN (?, ..., ?)] with the bound parameters [params]; an
    empty parameter list is accepted by SQLite and selects nothing. *)
Definition where_in (params : list K) (l : list A) : list A :=
  filter (fun r => existsb (eqb (key r)) params) l.

End Operators.

End Sql.

(* ================================================================== *)
(** * What psutil reports about a process *)
(* ================================================================== *)

Module Psutil.

(** The named tuples psutil returns.  A field that only some platforms
    provide is an [option]: [None] means the attribute does not exist on
    the tuple.  Memory counters are byte counts. *)
Record pmem : Type := {
  rss : Z;
  vms : Z;
  shared : option Z
}.

(** Of [memory_full_info()] the scripts read only [uss], [pss], [swap]. *)
Record pfullmem : Type := {
  uss : option Z;
  pss : option Z;
  swap : option Z
}.

Record pcputimes : Type := {
  user : float;
  system : float;
  children_user : option float;
  children_system : option float;
  iowait : option float
}.

Record pctxsw : Type := {
  voluntary : Z;
  involuntary : Z
}.

(** One process as seen during one tick: what each method call returns
    or raises. *)
Record Process : Type := {
  memory_info : Py.result pmem;
  memory_full_info : Py.result pfullmem;
  cpu_times : Py.result pcputimes;
  cpu_percent : Py.result float;
  num_ctx_switches : Py.result pctxsw
}.

(** One element of [psutil.process_iter(['name', 'cmdline'])];
    [cmdline = None] is the value psutil substitutes when the command
    line cannot be read. *)
Record proc_entry : Type := {
  cmdline : option (list string);
  proc : Process
}.

(** [getattr(obj, name, default)] on an optional attribute. *)
Definition getattr_default {A : Type} (attr : option A) (default : A) : A :=
  match attr with
  | Some v => v
  | None => default
  end.

(** [obj.name] on an optional attribute. *)
Definition getattr {A : Type} (attr : option A) : Py.result A :=
  match attr with
  | Some v => Py.Ok v
  | None => Py.Raise Py.AttributeError
  end.

End Psutil.

(** What the sampling thread does that is visible from outside the
    store: lines written to standard output and calls to [time.sleep]. *)
Inductive event : Type :=
| Print (l : Py.line)
| Sleep (seconds : Z).

(** The reply of the monitored system's PostgreSQL database to a
    one-row query: a failure (with its message), no row, or a row whose
    single column may be NULL. *)
Inductive pg_reply (A : Type) : Type :=
| PgError (msg : string)
| PgNoRow
| PgRow (v : option A).

Arguments PgError {A} msg.
Arguments PgNoRow {A}.
Arguments PgRow {A} v.

(* ================================================================== *)
(** * scripts/db-sync-process-monitor.py *)
(* ================================================================== *)

Module Monitor.

Import Py Psutil.

(** ** The SQLite file

    One record per table of [init_db], one field per column.  The key
    and [version] columns always receive an [int] or a [str] from the
    only [INSERT]s of the script; the metric columns are nullable and
    hold what the extractor hands over.  None of the three tables
    declares a key or a constraint. *)

Record memory_row : Type := {
  m_slot_no : Z;
  m_rss : option float;
  m_vms : option float;
  m_uss : option float;
  m_pss : option float;
  m_swap : option float;
  m_shared : option float;
  m_version : string
}.

Record cpu_row : Type := {
  c_slot_no : Z;
  c_cpu_percent : option float;
  c_user_time : option float;
  c_system_time : option float;
  c_children_user : option float;
  c_children_system : option float;
  c_iowait : option float;
  c_ctx_switches : option Z;
  c_interrupts : option Z;
  c_version : string
}.

Record version_row : Type := {
  v_timestamp : string;
  v_version : string
}.

Record Db : Type := {
  memory_metrics : list memory_row;
  cpu_metrics : list cpu_row;
  db_sync_version : list version_row
}.

Definition empty_db : Db :=
  {| memory_metrics := []; cpu_metrics := []; db_sync_version := [] |}.

(** [init_db]: [CREATE TABLE IF NOT EXISTS] three times.  [file] is the
    content of the SQLite file before the call, [None] when it does not
    exist yet. *)
Definition init_db (file : option Db) : Db :=
  match file with
  | Some d => d
  | None => empty_db
  end.

Definition insert_memory_metrics (r : memory_row) (d : Db) : Db :=
  {| memory_metrics := memory_metrics d ++ [r];
     cpu_metrics := cpu_metrics d;
     db_sync_version := db_sync_version d |}.

Definition insert_cpu_metrics (r : cpu_row) (d : Db) : Db :=
  {| memory_metrics := memory_metrics d;
     cpu_metrics := cpu_metrics d ++ [r];
     db_sync_version := db_sync_version d |}.

Definition insert_db_sync_version (r : version_row) (d : Db) : Db :=
  {| memory_metrics := memory_metrics d;
     cpu_metrics := cpu_metrics d;
     db_sync_version := db_sync_version d ++ [r] |}.

(** ** Configuration and the world seen by one tick *)

Record Config : Type := {
  env : string;
  db_sync_ver : string
}.

Record World : Type := {
  pg_slot : pg_reply Z;
  pg_sync : pg_reply float;
  processes : list proc_entry;
  now : string
}.

Record State : Type := {
  db : Db;
  out : list event
}.

Definition emit (evs : list event) (st : State) : State :=
  {| db := db st; out := out st ++ evs |}.

Definition with_db (f : Db -> Db) (st : State) : State :=
  {| db := f (db st); out := out st |}.

(** ** The extractors *)

Fixpoint get_process (ps : list proc_entry) : option Process :=
  match ps with
  | [] => None
  | p :: ps' =>
      if contains "cardano-db-sync"
           (join " " (match cmdline p with Some args => args | None => [] end))
      then Some (proc p)
      else get_process ps'
  end.

(** The dict of [get_memory_details]: every value is a float (MB). *)
Record mem_details : Type := {
  d_rss : float;
  d_vms : float;
  d_uss : float;
  d_pss : float;
  d_swap : float;
  d_shared : float
}.

Definition get_memory_details (process : Process) : option mem_details :=
  match
    (mi <- memory_info process ;;
     mfi <- memory_full_info process ;;
     Ok {| d_rss := truediv_int (rss mi) (1024 ^ 2);
           d_vms := truediv_int (vms mi) (1024 ^ 2);
           d_uss := truediv_int (getattr_default (uss mfi) 0) (1024 ^ 2);
           d_pss := truediv_int (getattr_default (pss mfi) 0) (1024 ^ 2);
           d_swap := truediv_int (getattr_default (swap mfi) 0) (1024 ^ 2);
           d_shared := truediv_int (getattr_default (shared mi) 0) (1024 ^ 2) |})
  with
  | Ok d => Some d
  | Raise _ => None
  end.

(** The dict of [get_cpu_details]. *)
Record cpu_details : Type := {
  d_cpu_percent : float;
  d_user_time : float;
  d_system_time : float;
  d_children_user : float;
  d_children_system : float;
  d_iowait : float;
  d_ctx_switches : Z;
  d_interrupts : option Z
}.

Definition get_cpu_details (process : Process) : option cpu_details :=
  match
    (times <- cpu_times process ;;
     percent <- cpu_percent process ;;
     ctx <- num_ctx_switches process ;;
     Ok {| d_cpu_percent := percent;
           d_user_time := user times;
           d_system_time := system times;
           d_children_user := getattr_default (children_user times) 0%float;
           d_children_system := getattr_default (children_system times) 0%float;
           d_iowait := getattr_default (iowait times) 0%float;
           d_ctx_switches := voluntary ctx + involuntary ctx;
           d_interrupts := None |})
  with
  | Ok d => Some d
  | Raise _ => None
  end.

(** [get_slot_no]: the returned value and what it prints. *)
Definition get_slot_no (reply : pg_reply Z) : option Z * list event :=
  match reply with
  | PgError msg => (None, [Print [FLit "Postgres error:"; FLit " "; FLit msg]])
  | PgNoRow => (None, [])
  | PgRow v => (v, [])
  end.

(** [get_sync_percent]: the returned value and what it prints. *)
Definition get_sync_percent (reply : pg_reply float) : option float * list event :=
  match reply with
  | PgError msg => (None, [Print [FLit "Error fetching sync percent: "; FLit msg]])
  | PgNoRow => (None, [])
  | PgRow v => (v, [])
  end.

Definition get_db_sync_version (cfg : Config) : string :=
  String.append "cardano-db-sync "
    (String.append (db_sync_ver cfg) (String.append " " (env cfg))).

(** ** [log_metrics] *)

(** How one pass through the body of [while self.running] ends: control
    returns to the loop test, or an exception leaves the loop (nothing in
    [log_metrics] catches it, so the sampling thread ends there). *)
Inductive outcome : Type :=
| Continue (st : State)
| Crashed (e : exn) (st : State).

Definition state_of (o : outcome) : State :=
  match o with
  | Continue st => st
  | Crashed _ st => st
  end.

(** The f-string handed to [print] at the end of a tick.  Its fields are
    evaluated from left to right. *)
Definition status_line (slot : Z) (sync_progress : option float)
  (cpu : option cpu_details) (mem : option mem_details) : result line :=
  sp <- format_2f sync_progress ;;
  Ok [FLit "Slot "; FInt slot; FLit " | Sync Progress: "; sp; FLit "% | ";
      FLit "CPU ";
      match cpu with Some c => FFloat (d_cpu_percent c) | None => FLit "N/A" end;
      FLit "% | RSS ";
      match mem with Some m => FFloat (d_rss m) | None => FLit "N/A" end;
      FLit "MB"].

Definition memory_row_of (slot : Z) (mem : mem_details) (ver : string) : memory_row :=
  {| m_slot_no := slot;
     m_rss := Some (d_rss mem);
     m_vms := Some (d_vms mem);
     m_uss := Some (d_uss mem);
     m_pss := Some (d_pss mem);
     m_swap := Some (d_swap mem);
     m_shared := Some (d_shared mem);
     m_version := ver |}.

Definition cpu_row_of (slot : Z) (cpu : cpu_details) (ver : string) : cpu_row :=
  {| c_slot_no := slot;
     c_cpu_percent := Some (d_cpu_percent cpu);
     c_user_time := Some (d_user_time cpu);
     c_system_time := Some (d_system_time cpu);
     c_children_user := Some (d_children_user cpu);
     c_children_system := Some (d_children_system cpu);
     c_iowait := Some (d_iowait cpu);
     c_ctx_switches := Some (d_ctx_switches cpu);
     c_interrupts := d_interrupts cpu;
     c_version := ver |}.

(** One iteration of the [while self.running] loop. *)
Definition tick (cfg : Config) (w : World) (st : State) : outcome :=
  let (slot, printed_slot) := get_slot_no (pg_slot w) in
  let st := emit printed_slot st in
  match slot with
  | None => Continue (emit [Sleep 10] st)
  | Some slot =>
      let proc := get_process (processes w) in
      let mem := match proc with Some p => get_memory_details p | None => None end in
      let cpu := match proc with Some p => get_cpu_details p | None => None end in
      let ver := get_db_sync_version cfg in
      let (sync_progress, printed_sync) := get_sync_percent (pg_sync w) in
      let st := emit printed_sync st in
      let st :=
        match mem with
        | Some m => with_db (insert_memory_metrics (memory_row_of slot m ver)) st
        | None => st
        end in
      let st :=
        match cpu with
        | Some c => with_db (insert_cpu_metrics (cpu_row_of slot c ver)) st
        | None => st
        end in
      let st :=
        with_db (insert_db_sync_version
                   {| v_timestamp := now w; v_version := ver |}) st in
      match status_line slot sync_progress cpu mem with
      | Ok l => Continue (emit [Print l; Sleep 10] st)
      | Raise e => Crashed e st
      end
  end.

(** The loop over the iterations that found [self.running] true; the
    list ends where the flag was found cleared. *)
Fixpoint log_metrics_loop (cfg : Config) (ws : list World) (st : State) : outcome :=
  match ws with
  | [] => Continue st
  | w :: ws' =>
      match tick cfg w st with
      | Continue st' => log_metrics_loop cfg ws' st'
      | Crashed e st' => Crashed e st'
      end
  end.

(** [log_metrics]: prime [cpu_percent] on the process found at start-up
    ([startup] is the process table at that moment), then loop. *)
Definition log_metrics (cfg : Config) (startup : list proc_entry)
  (ws : list World) (st : State) : outcome :=
  match get_process startup with
  | Some p =>
      match cpu_percent p with
      | Ok _ => log_metrics_loop cfg ws st
      | Raise e => Crashed e st
      end
  | None => log_metrics_loop cfg ws st
  end.

(** ** [plot_metrics]: the two queries *)

(** The columns the two queries select: key, value, version. *)
Definition point : Type := (Z * option float * string)%type.

Definition point_key (p : point) : Z := fst (fst p).

Definition memory_point (r : memory_row) : point :=
  (m_slot_no r, m_rss r, m_version r).

Definition cpu_point (r : cpu_row) : point :=
  (c_slot_no r, c_cpu_percent r, c_version r).

(** [SELECT slot_no, rss, version FROM memory_metrics
     WHERE version IN (...) ORDER BY slot_no] *)
Definition load_memory (versions : list string) (d : Db) : list point :=
  map memory_point
    (Sql.order_by m_slot_no Z.leb
       (Sql.where_in m_version String.eqb versions (memory_metrics d))).

(** [SELECT slot_no, cpu_percent, version FROM cpu_metrics
     WHERE version IN (...) ORDER BY slot_no] *)
Definition load_cpu (versions : list string) (d : Db) : list point :=
  map cpu_point
    (Sql.order_by c_slot_no Z.leb
       (Sql.where_in c_version String.eqb versions (cpu_metrics d))).

(** [plot_metrics] up to the point where the two data frames are handed
    to the plotting library. *)
Definition plot_metrics (versions : list string) (d : Db) : list point * list point :=
  (load_memory versions d, load_cpu versions d).

(** ** [run]: listing and choosing versions *)

(** [SELECT DISTINCT version FROM db_sync_version ORDER BY timestamp DESC].
    The ordering column is not among the selected ones.  SQLite runs the
    query in one pass over the table in rowid order: a row whose version
    is already in the set of produced versions is skipped, any other row
    enters the sorter together with its own timestamp; the sorter then
    yields the kept rows by descending timestamp, compared as text.  So
    each version is placed by the timestamp of its first row. *)
Definition distinct_versions (d : Db) : list string :=
  map v_version
    (Sql.order_by v_timestamp (fun t1 t2 => String.leb t2 t1)
       (Sql.select_distinct v_version String.eqb (db_sync_version d))).

(** [[vers[int(i) - 1] for i in sel.split(",")]] *)
Definition choose (vers : list string) (sel : string) : result (list string) :=
  comprehension (fun i => n <- Py.int i ;; getitem vers (n - 1)) (split "," sel).

(** One pass through the body of [while True] in [run], [sel] being what
    the operator types at the prompt.  Only [KeyboardInterrupt] is caught
    around the loop, so an exception of [choose] leaves [run] and ends
    the main thread. *)
Inductive run_step : Type :=
| Waiting
| Plotted (chosen : list string) (mem_df cpu_df : list point)
| Uncaught (e : exn).

Definition run_iteration (d : Db) (sel : string) : run_step * Db :=
  let vers := distinct_versions d in
  match vers with
  | [] => (Waiting, d)
  | _ :: _ =>
      match choose vers sel with
      | Ok chosen =>
          let (mem_df, cpu_df) := plot_metrics chosen d in
          (Plotted chosen mem_df cpu_df, d)
      | Raise e => (Uncaught e, d)
      end
  end.

(** ** [plot_metrics]: the traces handed to the figure *)

(** One [go.Scatter]: its legend name, its x and y values and the row of
    the figure it is added to. *)
Record trace : Type := {
  t_name : string;
  t_x : list Z;
  t_y : list (option float);
  t_row : Z
}.

(** [df[df.version == v]] *)
Definition rows_of_version (v : string) (df : list point) : list point :=
  filter (fun p => String.eqb (snd p) v) df.

Definition trace_of (name : string) (row : Z) (df : list point) : trace :=
  {| t_name := name;
     t_x := map point_key df;
     t_y := map (fun p => snd (fst p)) df;
     t_row := row |}.

(** The loop [for v in versions] of [plot_metrics]: a memory trace and
    a cpu trace per requested version, in that order. *)
Definition plot_traces (versions : list string) (mem_df cpu_df : list point)
  : list trace :=
  flat_map
    (fun v =>
       [ trace_of (String.append "Mem-" v) 1 (rows_of_version v mem_df);
         trace_of (String.append "CPU-" v) 2 (rows_of_version v cpu_df) ])
    versions.

End Monitor.

(* ================================================================== *)
(** * scripts/regenerate-plots.py *)
(* ================================================================== *)

Module Regenerate.

Import Py.

(** [load_versions]: the same query as [Monitor.run]; [str(v)] leaves a
    [str] unchanged. *)
Definition load_versions (d : Monitor.Db) : list string :=
  Monitor.distinct_versions d.

(** [load_metrics] *)
Definition load_metrics (d : Monitor.Db) (versions : list string)
  : list Monitor.point * list Monitor.point :=
  (Monitor.load_memory versions d, Monitor.load_cpu versions d).

(** The body of the [try] in [main]:
    [idxs = [int(x.strip()) - 1 for x in sel.split(",")]] and then
    [chosen = [versions[i] for i in idxs]]. *)
Definition choose (versions : list string) (sel : string) : result (list string) :=
  idxs <- comprehension (fun x => n <- Py.int (strip x) ;; Ok (n - 1)) (split "," sel) ;;
  comprehension (fun i => getitem versions i) idxs.

(** How [main] ends. *)
Inductive main_end : Type :=
| NoVersions
| InvalidSelection
| Saved (chosen : list string) (mem_df cpu_df : list Monitor.point).

(** [main], [sel] being what the operator types at the prompt.  The
    [except Exception] turns every exception of [choose] into the
    message [Invalid selection. Exiting.] and a normal return. *)
Definition main (d : Monitor.Db) (sel : string) : main_end * Monitor.Db :=
  let versions := load_versions d in
  match versions with
  | [] => (NoVersions, d)
  | _ :: _ =>
      match choose versions sel with
      | Ok chosen =>
          let (mem_df, cpu_df) := load_metrics d chosen in
          (Saved chosen mem_df cpu_df, d)
      | Raise _ => (InvalidSelection, d)
      end
  end.

(** [plot_and_save]: first the memory traces of all versions, then the
    cpu traces. *)
Definition plot_traces (versions : list string)
  (mem_df cpu_df : list Monitor.point) : list Monitor.trace :=
  map (fun v => Monitor.trace_of (String.append "Mem - " v) 1
                  (Monitor.rows_of_version v mem_df)) versions
  ++ map (fun v => Monitor.trace_of (String.append "CPU - " v) 2
                     (Monitor.rows_of_version v cpu_df)) versions.

(** ["_".join(v.replace(" ", "").replace("/", "-") for v in versions)] *)
Definition safe_name (versions : list string) : string :=
  join "_" (map (fun v => replace_char "/" "-" (replace_char " " "" v)) versions).


End Regenerate.

(* ================================================================== *)
(** * scripts/simple-db-sync-monitor.py *)
(* ================================================================== *)

Module Simple.

Import Py Psutil.

(** The two tables of this script are keyed by an ISO timestamp and
    carry a constant process name. *)
Record memory_row : Type := {
  m_timestamp : string;
  m_rss : option float;
  m_vms : option float;
  m_uss : option float;
  m_pss : option float;
  m_swap : option float;
  m_shared : option float;
  m_process : string
}.

Record cpu_row : Type := {
  c_timestamp : string;
  c_cpu_percent : option float;
  c_user_time : option float;
  c_system_time : option float;
  c_children_user : option float;
  c_children_system : option float;
  c_iowait : option float;
  c_ctx_switches : option Z;
  c_interrupts : option Z;
  c_process : string
}.

Record Db : Type := {
  memory_metrics : list memory_row;
  cpu_metrics : list cpu_row
}.

Definition empty_db : Db := {| memory_metrics := []; cpu_metrics := [] |}.

Definition init_db (file : option Db) : Db :=
  match file with
  | Some d => d
  | None => empty_db
  end.

Definition insert_memory_metrics (r : memory_row) (d : Db) : Db :=
  {| memory_metrics := memory_metrics d ++ [r]; cpu_metrics := cpu_metrics d |}.

Definition insert_cpu_metrics (r : cpu_row) (d : Db) : Db :=
  {| memory_metrics := memory_metrics d; cpu_metrics := cpu_metrics d ++ [r] |}.

Record World : Type := {
  processes : list proc_entry;
  cpu_count : option Z;
  now : string
}.

Record State : Type := {
  db : Db;
  out : list event
}.

Definition emit (evs : list event) (st : State) : State :=
  {| db := db st; out := out st ++ evs |}.

Definition with_db (f : Db -> Db) (st : State) : State :=
  {| db := f (db st); out := out st |}.

Fixpoint get_process (ps : list proc_entry) : option Process :=
  match ps with
  | [] => None
  | p :: ps' =>
      if contains "cardano-db-sync"
           (join " " (match cmdline p with Some args => args | None => [] end))
      then Some (proc p)
      else get_process ps'
  end.

(** The exceptions named by the [except] clauses of the two extractors. *)
Definition handled (e : exn) : bool :=
  match e with
  | NoSuchProcess | AccessDenied | AttributeError => true
  | _ => false
  end.

(** [x / 1024 / 1024] starting from an int. *)
Definition to_mb (bytes : Z) : float :=
  truediv_float_int (truediv_int bytes 1024) 1024.

Record mem_details : Type := {
  d_rss : float;
  d_vms : float;
  d_uss : option float;
  d_pss : option float;
  d_swap : option float;
  d_shared : float
}.

(** [get_memory_details]: [Ok None] is the [return None] of the
    [except] clause, [Raise] an exception the clause does not name. *)
Definition get_memory_details (process : Process) : result (option mem_details) :=
  match
    (mem_info <- memory_info process ;;
     mem_full <- memory_full_info process ;;
     sh <- getattr (shared mem_info) ;;
     Ok {| d_rss := to_mb (rss mem_info);
           d_vms := to_mb (vms mem_info);
           d_uss := option_map to_mb (uss mem_full);
           d_pss := option_map to_mb (pss mem_full);
           d_swap := option_map to_mb (swap mem_full);
           d_shared := to_mb sh |})
  with
  | Ok d => Ok (Some d)
  | Raise e => if handled e then Ok None else Raise e
  end.

Record cpu_details : Type := {
  d_cpu_percent : float;
  d_cpu_percent_normalized : float;
  d_user_time : float;
  d_system_time : float;
  d_children_user : float;
  d_children_system : float;
  d_iowait : option float;
  d_ctx_switches : Z;
  d_interrupts : option Z
}.

(** [psutil.cpu_count() or 1] *)
Definition cpu_count_or_1 (n : option Z) : Z :=
  match n with
  | Some k => if k =? 0 then 1 else k
  | None => 1
  end.

(** [get_cpu_details]: the value and what the [except] clause prints. *)
Definition get_cpu_details (count : option Z) (process : Process)
  : result (option cpu_details * list event) :=
  match
    (times <- cpu_times process ;;
     percent <- cpu_percent process ;;
     ctx <- num_ctx_switches process ;;
     Ok {| d_cpu_percent := percent;
           d_cpu_percent_normalized := truediv_float_int percent (cpu_count_or_1 count);
           d_user_time := user times;
           d_system_time := system times;
           d_children_user := getattr_default (children_user times) 0%float;
           d_children_system := getattr_default (children_system times) 0%float;
           d_iowait := iowait times;
           d_ctx_switches := voluntary ctx + involuntary ctx;
           d_interrupts := None |})
  with
  | Ok d => Ok (Some d, [])
  | Raise e =>
      if handled e
      then Ok (None, [Print [FLit "Error collecting CPU data: "; FExn e]])
      else Raise e
  end.

Inductive outcome : Type :=
| Continue (st : State)
| Crashed (e : exn) (st : State).

Definition state_of (o : outcome) : State :=
  match o with
  | Continue st => st
  | Crashed _ st => st
  end.

Definition memory_row_of (timestamp : string) (m : mem_details) : memory_row :=
  {| m_timestamp := timestamp;
     m_rss := Some (d_rss m);
     m_vms := Some (d_vms m);
     m_uss := d_uss m;
     m_pss := d_pss m;
     m_swap := d_swap m;
     m_shared := Some (d_shared m);
     m_process := "cardano-db-sync" |}.

Definition cpu_row_of (timestamp : string) (c : cpu_details) : cpu_row :=
  {| c_timestamp := timestamp;
     c_cpu_percent := Some (d_cpu_percent c);
     c_user_time := Some (d_user_time c);
     c_system_time := Some (d_system_time c);
     c_children_user := Some (d_children_user c);
     c_children_system := Some (d_children_system c);
     c_iowait := d_iowait c;
     c_ctx_switches := Some (d_ctx_switches c);
     c_interrupts := d_interrupts c;
     c_process := "cardano-db-sync" |}.

Definition status_line (timestamp : string) (cpu : option cpu_details)
  (mem : option mem_details) : line :=
  [FLit timestamp; FLit " - CPU: ";
   match cpu with Some c => FFloat (d_cpu_percent c) | None => FLit "N/A" end;
   FLit "% | RSS: ";
   match mem with Some m => FFloat (d_rss m) | None => FLit "N/A" end;
   FLit "MB"].

(** One iteration of the [while self.running] loop of [log_metrics]. *)
Definition tick (w : World) (st : State) : outcome :=
  let timestamp := now w in
  match get_process (processes w) with
  | None => Continue (emit [Sleep 10] st)
  | Some p =>
      match get_memory_details p with
      | Raise e => Crashed e st
      | Ok mem_data =>
          match get_cpu_details (cpu_count w) p with
          | Raise e => Crashed e st
          | Ok (cpu_data, printed) =>
              let st := emit printed st in
              let st :=
                match mem_data with
                | Some m => with_db (insert_memory_metrics (memory_row_of timestamp m)) st
                | None => st
                end in
              let st :=
                match cpu_data with
                | Some c => with_db (insert_cpu_metrics (cpu_row_of timestamp c)) st
                | None => st
                end in
              Continue (emit [Print (status_line timestamp cpu_data mem_data); Sleep 10] st)
          end
      end
  end.

Fixpoint log_metrics_loop (ws : list World) (st : State) : outcome :=
  match ws with
  | [] => Continue st
  | w :: ws' =>
      match tick w st with
      | Continue st' => log_metrics_loop ws' st'
      | Crashed e st' => Crashed e st'
      end
  end.

(** [log_metrics]: prime [cpu_percent] on the process found at start-up,
    then loop. *)
Definition log_metrics (startup : list proc_entry) (ws : list World)
  (st : State) : outcome :=
  match get_process startup with
  | Some p =>
      match cpu_percent p with
      | Ok _ => log_metrics_loop ws st
      | Raise e => Crashed e st
      end
  | None => log_metrics_loop ws st
  end.

(** The memory query of [plot_metrics]:
    [SELECT timestamp, rss, vms, uss, pss, swap, shared FROM memory_metrics
     WHERE datetime(timestamp) >= datetime('now', '-24 hours')];
    [recent] decides the [WHERE] clause for the moment of the call. *)
Definition load_memory (recent : string -> bool) (d : Db)
  : list (string * option float * option float * option float
          * option float * option float * option float) :=
  map (fun r => (m_timestamp r, m_rss r, m_vms r, m_uss r, m_pss r, m_swap r, m_shared r))
    (filter (fun r => recent (m_timestamp r)) (memory_metrics d)).

(** The cpu query of [plot_metrics]:
    [SELECT timestamp, cpu_percent, user_time, system_time, iowait,
            ctx_switches, interrupts FROM cpu_metrics WHERE ...]. *)
Definition load_cpu (recent : string -> bool) (d : Db)
  : list (string * option float * option float * option float
          * option float * option Z * option Z) :=
  map (fun r => (c_timestamp r, c_cpu_percent r, c_user_time r, c_system_time r,
                 c_iowait r, c_ctx_switches r, c_interrupts r))
    (filter (fun r => recent (c_timestamp r)) (cpu_metrics d)).

(** One line drawn on an axis: its label and its points. *)
Record curve : Type := {
  label : string;
  points : list (string * option float)
}.

(** [series.isnull().all()] *)
Definition all_null (values : list (option float)) : bool :=
  forallb (fun v => match v with None => true | Some _ => false end) values.

(** What [plot_metrics] does: nothing but a message when one of the two
    frames is empty, otherwise a figure with the curves of the memory
    axis and those of the cpu axis. *)
Inductive plot_result : Type :=
| NotEnoughData
| Figure (memory_axis cpu_axis : list curve).

(** [plot_metrics]; [recent_mem] and [recent_cpu] decide the [WHERE]
    clause of the two queries at the moment each one runs. *)
Definition plot_metrics (recent_mem recent_cpu : string -> bool) (d : Db)
  : plot_result :=
  let mem_df := load_memory recent_mem d in
  let cpu_df := load_cpu recent_cpu d in
  match mem_df, cpu_df with
  | [], _ => NotEnoughData
  | _, [] => NotEnoughData
  | _ :: _, _ :: _ =>
      let ts_mem := map (fun r => match r with (t, _, _, _, _, _, _) => t end) mem_df in
      let rss := map (fun r => match r with (_, v, _, _, _, _, _) => v end) mem_df in
      let uss := map (fun r => match r with (_, _, _, v, _, _, _) => v end) mem_df in
      let ts_cpu := map (fun r => match r with (t, _, _, _, _, _, _) => t end) cpu_df in
      let pct := map (fun r => match r with (_, v, _, _, _, _, _) => v end) cpu_df in
      let iow := map (fun r => match r with (_, _, _, _, v, _, _) => v end) cpu_df in
      Figure
        ({| label := "RSS"; points := combine ts_mem rss |}
         :: (if all_null uss then []
             else [{| label := "USS"; points := combine ts_mem uss |}]))
        ({| label := "CPU %"; points := combine ts_cpu pct |}
         :: (if all_null iow then []
             else [{| label := "I/O Wait"; points := combine ts_cpu iow |}]))
  end.

End Simple.

(* ================================================================== *)
(** * scripts/create-db-sync-stats.py: the size report *)
(* ================================================================== *)

Module Stats.

Import Py.

(** A Python [dict] from [str] to [str]: its items in insertion order,
    no key twice. *)
Definition pydict : Type := list (string * string).

(** [d[k] = v]: a key that is present keeps its place and gets the new
    value, a new key goes to the end. *)
Fixpoint setitem (k v : string) (d : pydict) : pydict :=
  match d with
  | [] => [(k, v)]
  | (k', v') :: d' =>
      if String.eqb k' k then (k, v) :: d' else (k', v') :: setitem k v d'
  end.

(** [d.update(items)] and the [**items] of a dict display. *)
Definition update (d : pydict) (items : list (string * string)) : pydict :=
  fold_left (fun acc kv => setitem (fst kv) (snd kv) acc) items d.

(** [d.pop(k)]: the value and the dict without the key; [None] is the
    [KeyError] raised when the key is missing. *)
Fixpoint pop (k : string) (d : pydict) : option (string * pydict) :=
  match d with
  | [] => None
  | (k', v) :: d' =>
      if String.eqb k' k then Some (v, d')
      else match pop k d' with
           | Some (x, d'') => Some (x, (k', v) :: d'')
           | None => None
           end
  end.

(** [fetch_db_and_table_sizes] once the two queries have answered:
    [db_size] is the pretty-printed database size, [rows] the
    (table name, size) rows in the order of the query.  The result is
    [{"__database__": db_size, **{name: size for name, size in rows}}]. *)
Definition fetch_db_and_table_sizes (db_size : string)
  (rows : list (string * string)) : pydict :=
  update [("__database__", db_size)] (update [] rows).

Definition newline : string := String (ascii_of_nat 10) EmptyString.

Fixpoint spaces (n : nat) : string :=
  match n with
  | O => EmptyString
  | S n' => String " " (spaces n')
  end.

(** [format(s, '40s')]: left-justified in a field of [width] characters
    (table names are taken to be ASCII, one character per byte). *)
Definition ljust (width : nat) (s : string) : string :=
  String.append s (spaces (width - String.length s)).

(** The line written for one table. *)
Definition table_line (item : string * string) : line :=
  [FLit "  "; FLit (ljust 40 (fst item)); FLit " → "; FLit (snd item); FLit newline].

(** How [write_size_report] ends. *)
Inductive report_end : Type :=
| Written
| KeyError.

(** [write_size_report]: the strings passed to [f.write], how the call
    ends, and the caller's dict after the call ([pop] removes the
    database entry from it). *)
Definition write_size_report (sizes : pydict) (dbname : string)
  : list line * report_end * pydict :=
  let first := [FLit "Database: "; FLit dbname; FLit newline] in
  match pop "__database__" sizes with
  | None => ([first], KeyError, sizes)
  | Some (total, rest) =>
      ([first;
        [FLit "Total size: "; FLit total; FLit newline; FLit newline];
        [FLit "Table sizes:"; FLit newline]]
       ++ map table_line rest,
       Written, rest)
  end.

End Stats.

(* ================================================================== *)
(** * Vocabulary of the properties *)
(* ================================================================== *)

(** [v] is one of the requested version tags. *)
Definition tagged (versions : list string) (v : string) : bool :=
  existsb (String.eqb v) versions.

(** A sequence of appends to the store of [Monitor], in the order in
    which they are executed. *)
Inductive append : Type :=
| AppendMemory (r : Monitor.memory_row)
| AppendCpu (r : Monitor.cpu_row)
| AppendVersion (r : Monitor.version_row).





(** The timestamp of the first (lowest rowid) record of tag [v]. *)
Definition first_recorded (d : Monitor.Db) (v : string) : option string :=
  option_map Monitor.v_timestamp
    (find (fun r => String.eqb (Monitor.v_version r) v) (Monitor.db_sync_version d)).

(** The latest timestamp among the records of tag [v]. *)
Definition last_recorded (d : Monitor.Db) (v : string) : option string :=
  fold_left
    (fun acc r =>
       if String.eqb (Monitor.v_version r) v
       then match acc with
            | Some t => if String.leb t (Monitor.v_timestamp r)
                        then Some (Monitor.v_timestamp r) else Some t
            | None => Some (Monitor.v_timestamp r)
            end
       else acc)
    (Monitor.db_sync_version d) None.

(** [a] is not later than [b]; a tag without any record has no time. *)
Definition time_leb (a b : option string) : bool :=
  match a, b with
  | Some x, Some y => String.leb x y
  | _, _ => false
  end.

(** Every tag of [l] has a time that is not earlier than the time of
    any tag listed after it. *)
Definition most_recent_first (time : string -> option string) (l : list string) : Prop :=
  StronglySorted (fun a b => time_leb (time b) (time a) = true) l.

(** The token [tok] does not denote a position of a list of length [n]:
    it is not a number, or the number is above [n], or it is so negative
    that counting from the end leaves the list. *)
Definition unusable (n : nat) (tok : string) : Prop :=
  Py.int tok = Py.Raise Py.ValueError
  \/ exists k, Py.int tok = Py.Ok k /\ (Z.of_nat n < k \/ k <= - Z.of_nat n).


(** A tick that has a marker but no sync percent. *)
Definition lacks_sync_percent (w : Monitor.World) : bool :=
  match fst (Monitor.get_slot_no (Monitor.pg_slot w)),
        fst (Monitor.get_sync_percent (Monitor.pg_sync w)) with
  | Some _, None => true
  | _, _ => false
  end.

(** The command line of [e] mentions the monitored program. *)
Definition matches (e : Psutil.proc_entry) : bool :=
  Py.contains "cardano-db-sync"
    (Py.join " " (match Psutil.cmdline e with Some args => args | None => [] end)).

(** Every tag carried by a memory or cpu row is among the listed
    versions. *)
Definition samples_listed (d : Monitor.Db) : Prop :=
  (forall r, In r (Monitor.memory_metrics d) ->
             In (Monitor.m_version r) (Monitor.distinct_versions d))
  /\ (forall r, In r (Monitor.cpu_metrics d) ->
                In (Monitor.c_version r) (Monitor.distinct_versions d)).

(** The number of [time.sleep] calls among the events. *)
Definition sleeps (evs : list event) : nat :=
  List.length (filter (fun e => match e with Sleep _ => true | Print _ => false end) evs).

(** [memory_info()] of the process found in [w], if any, has no
    [shared] field. *)
Definition no_shared_counter (w : Simple.World) : Prop :=
  match Simple.get_process (Simple.processes w) with
  | Some p =>
      match Psutil.memory_info p with
      | Py.Ok mi => Psutil.shared mi = None
      | Py.Raise _ => True
      end
  | None => True
  end.

(** The tags of a log in the order in which each one first appears,
    [seen] being the tags that have appeared before. *)
Fixpoint first_appearances (seen : list string) (tags : list string) : list string :=
  match tags with
  | [] => []
  | t :: tags' =>
      if existsb (String.eqb t) seen then first_appearances seen tags'
      else t :: first_appearances (t :: seen) tags'
  end.

(** The timestamps of the version records grow strictly, as text, in
    the order of insertion. *)
Definition timestamps_increase (d : Monitor.Db) : Prop :=
  StronglySorted
    (fun a b => String.leb (Monitor.v_timestamp b) (Monitor.v_timestamp a) = false)
    (Monitor.db_sync_version d).

(** ** Concrete situations *)

Module Scenario.

Import Py Psutil.

Definition cfg : Monitor.Config :=
  {| Monitor.env := "preprod"; Monitor.db_sync_ver := "13.6.0.5" |}.

Definition ver : string := "cardano-db-sync 13.6.0.5 preprod".

(** A process on a platform whose [memory_full_info()] has [uss] but
    neither [pss] nor [swap], and whose [memory_info()] has no [shared]
    (macOS, Windows): 200 MB resident, 400 MB virtual, 100 MB unique. *)
Definition db_sync_no_pss : Process :=
  {| memory_info := Ok {| rss := 209715200; vms := 419430400; shared := None |};
     memory_full_info := Ok {| uss := Some 104857600; pss := None; swap := None |};
     cpu_times := Ok {| user := 1.5%float; system := 0.5%float;
                        children_user := None; children_system := None;
                        iowait := None |};
     cpu_percent := Ok 12.5%float;
     num_ctx_switches := Ok {| voluntary := 10; involuntary := 2 |} |}.

(** The same process where [shared] exists but [pss] and [swap] do not. *)
Definition db_sync_shared_no_pss : Process :=
  {| memory_info := Ok {| rss := 209715200; vms := 419430400; shared := Some 1048576 |};
     memory_full_info := Ok {| uss := Some 104857600; pss := None; swap := None |};
     cpu_times := cpu_times db_sync_no_pss;
     cpu_percent := cpu_percent db_sync_no_pss;
     num_ctx_switches := num_ctx_switches db_sync_no_pss |}.

Definition running (p : Process) : list proc_entry :=
  [ {| cmdline := Some ["postgres"; "-D"; "/var/lib/postgresql"]; proc := p |};
    {| cmdline := Some ["/usr/bin/cardano-db-sync"; "--config"; "c.yaml"]; proc := p |} ].

Definition fresh : Monitor.State :=
  {| Monitor.db := Monitor.init_db None; Monitor.out := [] |}.

(** Marker and sync percent both available, process found. *)
Definition healthy_tick : Monitor.World :=
  {| Monitor.pg_slot := PgRow (Some 5);
     Monitor.pg_sync := PgRow (Some 42.5%float);
     Monitor.processes := running db_sync_no_pss;
     Monitor.now := "2025-01-01T10:00:00" |}.

(** Marker available, process found, but the sync-percent query fails. *)
Definition sync_failed_tick : Monitor.World :=
  {| Monitor.pg_slot := PgRow (Some 5);
     Monitor.pg_sync := PgError "connection refused";
     Monitor.processes := running db_sync_no_pss;
     Monitor.now := "2025-01-01T10:00:00" |}.

(** Marker available, no db-sync process, sync-percent query fails. *)
Definition not_found_sync_failed_tick : Monitor.World :=
  {| Monitor.pg_slot := PgRow (Some 5);
     Monitor.pg_sync := PgError "connection refused";
     Monitor.processes := [ {| cmdline := Some ["postgres"]; proc := db_sync_no_pss |} ];
     Monitor.now := "2025-01-01T10:00:00" |}.

(** The marker query fails. *)
Definition marker_failed_tick : Monitor.World :=
  {| Monitor.pg_slot := PgError "connection refused";
     Monitor.pg_sync := PgRow (Some 42.5%float);
     Monitor.processes := running db_sync_no_pss;
     Monitor.now := "2025-01-01T10:00:10" |}.

(** A version log where v1 ran, then v2, then v1 again. *)
Definition resumed_v1 : Monitor.Db :=
  {| Monitor.memory_metrics := [];
     Monitor.cpu_metrics := [];
     Monitor.db_sync_version :=
       [ {| Monitor.v_timestamp := "2025-01-01T10:00:00"; Monitor.v_version := "v1" |};
         {| Monitor.v_timestamp := "2025-01-02T10:00:00"; Monitor.v_version := "v2" |};
         {| Monitor.v_timestamp := "2025-01-03T10:00:00"; Monitor.v_version := "v1" |} ] |}.

(** A version log with v1 then v2. *)
Definition two_versions : Monitor.Db :=
  {| Monitor.memory_metrics := [];
     Monitor.cpu_metrics := [];
     Monitor.db_sync_version :=
       [ {| Monitor.v_timestamp := "2025-01-01T10:00:00"; Monitor.v_version := "v1" |};
         {| Monitor.v_timestamp := "2025-01-02T10:00:00"; Monitor.v_version := "v2" |} ] |}.

(** v1 then v2, one memory sample each: rss 100 at key 5 for v1 and
    rss 200 at key 7 for v2. *)
Definition one_sample_each : Monitor.Db :=
  {| Monitor.memory_metrics :=
       [ {| Monitor.m_slot_no := 5; Monitor.m_rss := Some 100%float;
            Monitor.m_vms := None; Monitor.m_uss := None; Monitor.m_pss := None;
            Monitor.m_swap := None; Monitor.m_shared := None;
            Monitor.m_version := "v1" |};
         {| Monitor.m_slot_no := 7; Monitor.m_rss := Some 200%float;
            Monitor.m_vms := None; Monitor.m_uss := None; Monitor.m_pss := None;
            Monitor.m_swap := None; Monitor.m_shared := None;
            Monitor.m_version := "v2" |} ];
     Monitor.cpu_metrics := [];
     Monitor.db_sync_version := Monitor.db_sync_version two_versions |}.

(** simple-db-sync-monitor on a fresh file. *)
Definition simple_fresh : Simple.State :=
  {| Simple.db := Simple.init_db None; Simple.out := [] |}.

(** A tick of simple-db-sync-monitor that finds [p] running. *)
Definition simple_tick_with (p : Process) : Simple.World :=
  {| Simple.processes := running p;
     Simple.cpu_count := Some 8;
     Simple.now := "2025-01-01T10:00:00" |}.


End Scenario.

(* ================================================================== *)
(** * Facts about the relational operators *)
(* ================================================================== *)

(** [x] may come before [y] under the order [leb] on keys. *)
Definition key_before {A K : Type} (key : A -> K) (leb : K -> K -> bool)
  (x y : A) : Prop :=
  leb (key x) (key y) = true.

Section OrderByFacts.

Context {A K : Type}.
Variable key : A -> K.
Variable leb : K -> K -> bool.

Lemma sorter_insert_perm (x : A) (l : list A) :
  Permutation (Sql.sorter_insert key leb x l) (x :: l).
Proof.
  induction l as [|y l IH]; simpl.
  - apply Permutation_refl.
  - destruct (leb (key x) (key y)).
    + apply Permutation_refl.
    + eapply perm_trans; [apply perm_skip, IH | apply perm_swap].
Qed.

Lemma order_by_perm (l : list A) :
  Permutation (Sql.order_by key leb l) l.
Proof.
  induction l as [|x l IH]; simpl.
  - constructor.
  - eapply perm_trans; [apply sorter_insert_perm | apply perm_skip, IH].
Qed.

Lemma order_by_length (l : list A) :
  List.length (Sql.order_by key leb l) = List.length l.
Proof. apply Permutation_length, order_by_perm. Qed.

(** A group of rows that the order never separates keeps its scan order. *)
Lemma filter_sorter_insert (p : A -> bool) (x : A) (l : list A) :
  (forall y, p x = true -> p y = true -> leb (key x) (key y) = true) ->
  filter p (Sql.sorter_insert key leb x l)
  = if p x then x :: filter p l else filter p l.
Proof.
  intros Hp. induction l as [|y l IH]; simpl.
  - reflexivity.
  - destruct (leb (key x) (key y)) eqn:Hxy; simpl.
    + reflexivity.
    + rewrite IH. destruct (p x) eqn:Hx, (p y) eqn:Hy; try reflexivity.
      rewrite (Hp y eq_refl Hy) in Hxy. discriminate.
Qed.

Lemma filter_order_by (p : A -> bool) (l : list A) :
  (forall x y, p x = true -> p y = true -> leb (key x) (key y) = true) ->
  filter p (Sql.order_by key leb l) = filter p l.
Proof.
  intros Hp. induction l as [|x l IH]; simpl.
  - reflexivity.
  - rewrite filter_sorter_insert by (intros y; apply Hp).
    rewrite IH. reflexivity.
Qed.

Hypothesis leb_total : forall a b, leb a b = false -> leb b a = true.
Hypothesis leb_trans :
  forall a b c, leb a b = true -> leb b c = true -> leb a c = true.

Lemma sorter_insert_sorted (x : A) (l : list A) :
  StronglySorted (key_before key leb) l ->
  StronglySorted (key_before key leb) (Sql.sorter_insert key leb x l).
Proof.
  induction 1 as [|y l Hs IH Hy]; simpl.
  - repeat constructor.
  - destruct (leb (key x) (key y)) eqn:Hxy.
    + constructor.
      * constructor; assumption.
      * constructor; [exact Hxy|].
        eapply Forall_impl; [|exact Hy].
        intros z Hz. unfold key_before in *. eapply leb_trans; eassumption.
    + constructor; [exact IH|].
      eapply Permutation_Forall.
      * apply Permutation_sym, sorter_insert_perm.
      * constructor; [apply leb_total; exact Hxy | exact Hy].
Qed.

Lemma order_by_sorted (l : list A) :
  StronglySorted (key_before key leb) (Sql.order_by key leb l).
Proof.
  induction l as [|x l IH]; simpl.
  - constructor.
  - apply sorter_insert_sorted, IH.
Qed.

End OrderByFacts.

Section DistinctFacts.

Context {A K : Type}.
Variable key : A -> K.
Variable eqb : K -> K -> bool.
Hypothesis eqb_eq : forall a b, eqb a b = true <-> a = b.

Lemma existsb_eqb_In (k : K) (ks : list K) :
  existsb (eqb k) ks = true <-> In k ks.
Proof.
  rewrite existsb_exists. split.
  - intros [y [Hy He]]. apply eqb_eq in He. subst. exact Hy.
  - intros H. exists k. split; [exact H | apply eqb_eq; reflexivity].
Qed.

Lemma existsb_eqb_not_In (k : K) (ks : list K) :
  existsb (eqb k) ks = false <-> ~ In k ks.
Proof.
  rewrite <- existsb_eqb_In. destruct (existsb (eqb k) ks); split; intros H.
  - discriminate.
  - exfalso. apply H. reflexivity.
  - intros H'. discriminate.
  - reflexivity.
Qed.

Lemma distinct_scan_keys (seen : list K) (l : list A) (k : K) :
  In k (map key (Sql.distinct_scan key eqb seen l))
  <-> In k (map key l) /\ ~ In k seen.
Proof.
  revert seen. induction l as [|r l IH]; intros seen; simpl.
  - tauto.
  - destruct (existsb (eqb (key r)) seen) eqn:E.
    + apply existsb_eqb_In in E. rewrite IH. split.
      * intros [H1 H2]. auto.
      * intros [[H1|H1] H2]; [subst; contradiction | auto].
    + apply existsb_eqb_not_In in E. simpl. rewrite IH. simpl. split.
      * intros [H|[H1 H2]]; [subst; auto | split; [auto | tauto]].
      * intros [[H1|H1] H2]; [auto|].
        destruct (eqb (key r) k) eqn:Ek.
        -- apply eqb_eq in Ek. auto.
        -- right. split; [exact H1|]. intros [H|H]; [|contradiction].
           subst. assert (eqb (key r) (key r) = true) by (apply eqb_eq; reflexivity).
           congruence.
Qed.

Lemma distinct_scan_NoDup (seen : list K) (l : list A) :
  NoDup (map key (Sql.distinct_scan key eqb seen l)).
Proof.
  revert seen. induction l as [|r l IH]; intros seen; simpl.
  - constructor.
  - destruct (existsb (eqb (key r)) seen) eqn:E.
    + apply IH.
    + simpl. constructor; [|apply IH].
      rewrite distinct_scan_keys. simpl. tauto.
Qed.

(** Every row kept by the scan is the first row of the table that
    carries its key. *)
Lemma distinct_scan_first (seen : list K) (l : list A) (r : A) :
  In r (Sql.distinct_scan key eqb seen l) ->
  find (fun x => eqb (key x) (key r)) l = Some r.
Proof.
  revert seen. induction l as [|x l IH]; intros seen; simpl.
  - tauto.
  - destruct (existsb (eqb (key x)) seen) eqn:E.
    + intros Hin. destruct (eqb (key x) (key r)) eqn:Ex.
      * exfalso. apply eqb_eq in Ex. apply existsb_eqb_In in E.
        assert (Hk : In (key r) (map key (Sql.distinct_scan key eqb seen l)))
          by (apply in_map; exact Hin).
        apply distinct_scan_keys in Hk. rewrite Ex in E. tauto.
      * eapply IH; eassumption.
    + simpl. intros [Hin|Hin].
      * subst. assert (E' : eqb (key r) (key r) = true) by (apply eqb_eq; reflexivity).
        rewrite E'. reflexivity.
      * destruct (eqb (key x) (key r)) eqn:Ex.
        -- exfalso. apply eqb_eq in Ex.
           assert (Hk : In (key r) (map key (Sql.distinct_scan key eqb (key x :: seen) l)))
             by (apply in_map; exact Hin).
           apply distinct_scan_keys in Hk. simpl in Hk. tauto.
        -- eapply IH; eassumption.
Qed.

End DistinctFacts.

(** Text comparison (SQLite's BINARY collation) is transitive. *)
Lemma string_leb_trans (a b c : string) :
  String.leb a b = true -> String.leb b c = true -> String.leb a c = true.
Proof.
  unfold String.leb. revert b c.
  induction a as [|x a IH]; intros [|y b] [|z c]; simpl;
    try reflexivity; try discriminate.
  unfold Ascii.compare.
  destruct (N.compare_spec (N_of_ascii x) (N_of_ascii y)) as [E1|E1|E1];
    destruct (N.compare_spec (N_of_ascii y) (N_of_ascii z)) as [E2|E2|E2];
    try discriminate; intros H1 H2.
  - rewrite E1, E2, N.compare_refl. apply (IH b c); assumption.
  - rewrite E1. apply N.compare_lt_iff in E2. rewrite E2. reflexivity.
  - rewrite <- E2. apply N.compare_lt_iff in E1. rewrite E1. reflexivity.
  - assert (E : (N_of_ascii x < N_of_ascii z)%N) by lia.
    apply N.compare_lt_iff in E. rewrite E. reflexivity.
Qed.

Lemma string_geb_total (a b : string) :
  String.leb b a = false -> String.leb a b = true.
Proof.
  intros H. destruct (String.leb_total a b) as [H'|H']; congruence.
Qed.

(* ================================================================== *)
(** * List lemmas shared by the proofs *)
(* ================================================================== *)

Lemma filter_map_comm {A B : Type} (f : A -> B) (p : B -> bool) (l : list A) :
  filter p (map f l) = map f (filter (fun x => p (f x)) l).
Proof.
  induction l as [|x l IH]; simpl; [reflexivity|].
  destruct (p (f x)); simpl; rewrite IH; reflexivity.
Qed.

Lemma filter_filter {A : Type} (p q : A -> bool) (l : list A) :
  filter p (filter q l) = filter (fun x => p x && q x) l.
Proof.
  induction l as [|x l IH]; simpl; [reflexivity|].
  destruct (q x); simpl.
  - rewrite andb_true_r. destruct (p x); rewrite IH; reflexivity.
  - rewrite andb_false_r. exact IH.
Qed.

Lemma StronglySorted_map {A B : Type} (f : A -> B) (R : B -> B -> Prop) (l : list A) :
  StronglySorted (fun x y => R (f x) (f y)) l -> StronglySorted R (map f l).
Proof.
  induction 1 as [|x l Hs IH Hx]; simpl; constructor.
  - exact IH.
  - apply Forall_map. exact Hx.
Qed.

Lemma StronglySorted_impl {A : Type} (R S : A -> A -> Prop) (l : list A) :
  (forall x y, R x y -> S x y) -> StronglySorted R l -> StronglySorted S l.
Proof.
  intros HRS. induction 1 as [|x l Hs IH Hx]; constructor.
  - exact IH.
  - eapply Forall_impl; [|exact Hx]. intros y. apply HRS.
Qed.

Lemma Z_leb_total (a b : Z) : (a <=? b) = false -> (b <=? a) = true.
Proof. intros H. apply Z.leb_gt in H. apply Z.leb_le. lia. Qed.

Lemma Z_leb_trans (a b c : Z) :
  (a <=? b) = true -> (b <=? c) = true -> (a <=? c) = true.
Proof. rewrite !Z.leb_le. lia. Qed.

Lemma comprehension_ok {A B : Type} (f : A -> Py.result B) (xs : list A) (ys : list B) :
  Py.comprehension f xs = Py.Ok ys -> Forall2 (fun x y => f x = Py.Ok y) xs ys.
Proof.
  revert ys. induction xs as [|x xs IH]; simpl; intros ys H.
  - inversion H. constructor.
  - destruct (f x) as [y|e] eqn:Ef; simpl in H; [|discriminate].
    destruct (Py.comprehension f xs) as [ys'|e] eqn:Ec; simpl in H; [|discriminate].
    inversion H; subst. constructor; [exact Ef | apply IH; reflexivity].
Qed.

Lemma comprehension_raises {A B : Type} (f : A -> Py.result B) (xs : list A) :
  (exists x e, In x xs /\ f x = Py.Raise e) ->
  exists e, Py.comprehension f xs = Py.Raise e.
Proof.
  induction xs as [|x xs IH]; intros [x0 [e0 [Hin Hf]]]; simpl in *.
  - contradiction.
  - destruct (f x) as [y|e] eqn:Ef; simpl.
    + destruct Hin as [Hx|Hin]; [subst; congruence|].
      destruct IH as [e Hc]; [exists x0, e0; auto|].
      rewrite Hc. simpl. exists e. reflexivity.
    + exists e. reflexivity.
Qed.

(* ================================================================== *)
(** * The store: appends and the two load queries *)
(* ================================================================== *)

Lemma load_memory_sorted (versions : list string) (d : Monitor.Db) :
  StronglySorted (fun p q => Monitor.point_key p <= Monitor.point_key q)
    (Monitor.load_memory versions d).
Proof.
  unfold Monitor.load_memory. apply StronglySorted_map.
  eapply StronglySorted_impl;
    [|apply (order_by_sorted Monitor.m_slot_no Z.leb Z_leb_total Z_leb_trans)].
  intros x y H. unfold key_before in H. apply Z.leb_le in H. exact H.
Qed.

Lemma load_cpu_sorted (versions : list string) (d : Monitor.Db) :
  StronglySorted (fun p q => Monitor.point_key p <= Monitor.point_key q)
    (Monitor.load_cpu versions d).
Proof.
  unfold Monitor.load_cpu. apply StronglySorted_map.
  eapply StronglySorted_impl;
    [|apply (order_by_sorted Monitor.c_slot_no Z.leb Z_leb_total Z_leb_trans)].
  intros x y H. unfold key_before in H. apply Z.leb_le in H. exact H.
Qed.

Lemma same_key_leb (k a b : Z) :
  (a =? k) = true -> (b =? k) = true -> (a <=? b) = true.
Proof. rewrite !Z.eqb_eq, Z.leb_le. lia. Qed.

Lemma load_memory_stable (versions : list string) (d : Monitor.Db) (k : Z) :
  filter (fun p => Monitor.point_key p =? k) (Monitor.load_memory versions d)
  = map Monitor.memory_point
      (filter (fun r => (Monitor.m_slot_no r =? k) && tagged versions (Monitor.m_version r))
         (Monitor.memory_metrics d)).
Proof.
  unfold Monitor.load_memory. rewrite filter_map_comm.
  change (fun x => Monitor.point_key (Monitor.memory_point x) =? k)
    with (fun x => Monitor.m_slot_no x =? k).
  rewrite filter_order_by by (intros x y; apply same_key_leb).
  unfold Sql.where_in. rewrite filter_filter. reflexivity.
Qed.

Lemma load_cpu_stable (versions : list string) (d : Monitor.Db) (k : Z) :
  filter (fun p => Monitor.point_key p =? k) (Monitor.load_cpu versions d)
  = map Monitor.cpu_point
      (filter (fun r => (Monitor.c_slot_no r =? k) && tagged versions (Monitor.c_version r))
         (Monitor.cpu_metrics d)).
Proof.
  unfold Monitor.load_cpu. rewrite filter_map_comm.
  change (fun x => Monitor.point_key (Monitor.cpu_point x) =? k)
    with (fun x => Monitor.c_slot_no x =? k).
  rewrite filter_order_by by (intros x y; apply same_key_leb).
  unfold Sql.where_in. rewrite filter_filter. reflexivity.
Qed.

Lemma load_memory_perm (versions : list string) (d : Monitor.Db) :
  Permutation (Monitor.load_memory versions d)
    (map Monitor.memory_point
       (filter (fun r => tagged versions (Monitor.m_version r)) (Monitor.memory_metrics d))).
Proof.
  unfold Monitor.load_memory. apply Permutation_map. apply order_by_perm.
Qed.

Lemma load_cpu_perm (versions : list string) (d : Monitor.Db) :
  Permutation (Monitor.load_cpu versions d)
    (map Monitor.cpu_point
       (filter (fun r => tagged versions (Monitor.c_version r)) (Monitor.cpu_metrics d))).
Proof.
  unfold Monitor.load_cpu. apply Permutation_map. apply order_by_perm.
Qed.



(* ================================================================== *)
(** * One tick of the sampling loop *)
(* ================================================================== *)

Lemma monitor_cpu_details_interrupts (p : Psutil.Process) (c : Monitor.cpu_details) :
  Monitor.get_cpu_details p = Some c -> Monitor.d_interrupts c = None.
Proof.
  unfold Monitor.get_cpu_details.
  destruct (Psutil.cpu_times p); simpl; [|discriminate].
  destruct (Psutil.cpu_percent p); simpl; [|discriminate].
  destruct (Psutil.num_ctx_switches p); simpl; [|discriminate].
  intros H. inversion H. reflexivity.
Qed.

Lemma simple_cpu_details_interrupts (n : option Z) (p : Psutil.Process)
  (c : Simple.cpu_details) (printed : list event) :
  Simple.get_cpu_details n p = Py.Ok (Some c, printed) -> Simple.d_interrupts c = None.
Proof.
  unfold Simple.get_cpu_details.
  destruct (Psutil.cpu_times p) as [t|e]; simpl.
  - destruct (Psutil.cpu_percent p) as [x|e]; simpl.
    + destruct (Psutil.num_ctx_switches p) as [s|e]; simpl.
      * intros H. inversion H. reflexivity.
      * destruct (Simple.handled e); discriminate.
    + destruct (Simple.handled e); discriminate.
  - destruct (Simple.handled e); discriminate.
Qed.

(** What a tick of [Monitor] does to the store, case by case. *)
Lemma monitor_tick_db (cfg : Monitor.Config) (w : Monitor.World) (st : Monitor.State) :
  Monitor.db (Monitor.state_of (Monitor.tick cfg w st))
  = match fst (Monitor.get_slot_no (Monitor.pg_slot w)) with
    | None => Monitor.db st
    | Some slot =>
        let proc := Monitor.get_process (Monitor.processes w) in
        let ver := Monitor.get_db_sync_version cfg in
        let d1 :=
          match proc with
          | Some p =>
              match Monitor.get_memory_details p with
              | Some m => Monitor.insert_memory_metrics (Monitor.memory_row_of slot m ver) (Monitor.db st)
              | None => Monitor.db st
              end
          | None => Monitor.db st
          end in
        let d2 :=
          match proc with
          | Some p =>
              match Monitor.get_cpu_details p with
              | Some c => Monitor.insert_cpu_metrics (Monitor.cpu_row_of slot c ver) d1
              | None => d1
              end
          | None => d1
          end in
        Monitor.insert_db_sync_version
          {| Monitor.v_timestamp := Monitor.now w; Monitor.v_version := ver |} d2
    end.
Proof.
  unfold Monitor.tick.
  destruct (Monitor.get_slot_no (Monitor.pg_slot w)) as [[slot|] printed]; simpl;
    [|reflexivity].
  destruct (Monitor.get_sync_percent (Monitor.pg_sync w)) as [sync printed']; simpl.
  destruct (Monitor.get_process (Monitor.processes w)) as [p|]; simpl.
  - destruct (Monitor.get_memory_details p), (Monitor.get_cpu_details p);
      destruct (Monitor.status_line _ _ _ _); reflexivity.
  - destruct (Monitor.status_line _ _ _ _); reflexivity.
Qed.

Lemma monitor_tick_cpu_rows (cfg : Monitor.Config) (w : Monitor.World) (st : Monitor.State) :
  exists added,
    Monitor.cpu_metrics (Monitor.db (Monitor.state_of (Monitor.tick cfg w st)))
    = Monitor.cpu_metrics (Monitor.db st) ++ added
    /\ Forall (fun r => Monitor.c_interrupts r = None) added.
Proof.
  rewrite monitor_tick_db.
  destruct (fst (Monitor.get_slot_no (Monitor.pg_slot w))) as [slot|]; simpl.
  - destruct (Monitor.get_process (Monitor.processes w)) as [p|]; simpl.
    + destruct (Monitor.get_cpu_details p) as [c|] eqn:Ec.
      * exists [Monitor.cpu_row_of slot c (Monitor.get_db_sync_version cfg)].
        split.
        -- destruct (Monitor.get_memory_details p); reflexivity.
        -- repeat constructor. simpl. eapply monitor_cpu_details_interrupts; eassumption.
      * exists []. split; [|constructor].
        rewrite app_nil_r. destruct (Monitor.get_memory_details p); reflexivity.
    + exists []. split; [rewrite app_nil_r; reflexivity | constructor].
  - exists []. split; [rewrite app_nil_r; reflexivity | constructor].
Qed.

Lemma monitor_loop_cpu_rows (cfg : Monitor.Config) (ws : list Monitor.World)
  (st : Monitor.State) :
  exists added,
    Monitor.cpu_metrics (Monitor.db (Monitor.state_of (Monitor.log_metrics_loop cfg ws st)))
    = Monitor.cpu_metrics (Monitor.db st) ++ added
    /\ Forall (fun r => Monitor.c_interrupts r = None) added.
Proof.
  revert st. induction ws as [|w ws IH]; intros st; simpl.
  - exists []. split; [rewrite app_nil_r; reflexivity | constructor].
  - destruct (monitor_tick_cpu_rows cfg w st) as [a1 [E1 F1]].
    destruct (Monitor.tick cfg w st) as [st'|e st'] eqn:Et; simpl in E1.
    + destruct (IH st') as [a2 [E2 F2]].
      exists (a1 ++ a2). split.
      * rewrite E2, E1, app_assoc. reflexivity.
      * apply Forall_app. split; assumption.
    + exists a1. simpl. split; assumption.
Qed.

Lemma simple_tick_cpu_rows (w : Simple.World) (st : Simple.State) :
  exists added,
    Simple.cpu_metrics (Simple.db (Simple.state_of (Simple.tick w st)))
    = Simple.cpu_metrics (Simple.db st) ++ added
    /\ Forall (fun r => Simple.c_interrupts r = None) added.
Proof.
  unfold Simple.tick.
  destruct (Simple.get_process (Simple.processes w)) as [p|]; simpl;
    [|exists []; split; [rewrite app_nil_r; reflexivity | constructor]].
  destruct (Simple.get_memory_details p) as [mem|e]; simpl;
    [|exists []; split; [rewrite app_nil_r; reflexivity | constructor]].
  destruct (Simple.get_cpu_details (Simple.cpu_count w) p) as [[cpu printed]|e] eqn:Ec; simpl;
    [|exists []; split; [rewrite app_nil_r; reflexivity | constructor]].
  destruct cpu as [c|]; simpl.
  - exists [Simple.cpu_row_of (Simple.now w) c]. split.
    + destruct mem; reflexivity.
    + repeat constructor. simpl. eapply simple_cpu_details_interrupts; eassumption.
  - exists []. split; [|constructor].
    rewrite app_nil_r. destruct mem; reflexivity.
Qed.

Lemma simple_loop_cpu_rows (ws : list Simple.World) (st : Simple.State) :
  exists added,
    Simple.cpu_metrics (Simple.db (Simple.state_of (Simple.log_metrics_loop ws st)))
    = Simple.cpu_metrics (Simple.db st) ++ added
    /\ Forall (fun r => Simple.c_interrupts r = None) added.
Proof.
  revert st. induction ws as [|w ws IH]; intros st; simpl.
  - exists []. split; [rewrite app_nil_r; reflexivity | constructor].
  - destruct (simple_tick_cpu_rows w st) as [a1 [E1 F1]].
    destruct (Simple.tick w st) as [st'|e st'] eqn:Et; simpl in E1.
    + destruct (IH st') as [a2 [E2 F2]].
      exists (a1 ++ a2). split.
      * rewrite E2, E1, app_assoc. reflexivity.
      * apply Forall_app. split; assumption.
    + exists a1. simpl. split; assumption.
Qed.

(* ================================================================== *)
(** * Properties of the time-series store *)
(* ================================================================== *)

Lemma filter_none {A : Type} (l : list A) : filter (fun _ => false) l = [].
Proof. induction l as [|x l IH]; simpl; [reflexivity | exact IH]. Qed.

(** C9: with the empty tag list both load queries, in [plot_metrics] and
    in [load_metrics], return an empty table; they are total functions
    of the store, so no error arises. *)
Theorem empty_tag_list_loads_nothing (d : Monitor.Db) :
  Monitor.load_memory [] d = []
  /\ Monitor.load_cpu [] d = []
  /\ Regenerate.load_metrics d [] = ([], []).
Proof.
  assert (Hm : Monitor.load_memory [] d = []).
  { unfold Monitor.load_memory, Sql.where_in. simpl. rewrite filter_none. reflexivity. }
  assert (Hc : Monitor.load_cpu [] d = []).
  { unfold Monitor.load_cpu, Sql.where_in. simpl. rewrite filter_none. reflexivity. }
  unfold Regenerate.load_metrics. rewrite Hm, Hc. auto.
Qed.

(** C7: after any run of the sampling loop, from any starting store, the
    rows that [load_memory] and [load_cpu] return for the requested tags
    are in non-decreasing key order, and the rows with one and the same
    key [k] are exactly the stored rows with that key and a requested
    tag, in the order in which they were inserted.  [load_metrics] of
    regenerate-plots returns the same two tables. *)
Theorem loaded_rows_ordered_by_key (cfg : Monitor.Config)
  (startup : list Psutil.proc_entry) (ws : list Monitor.World)
  (st : Monitor.State) (versions : list string) :
  let d := Monitor.db (Monitor.state_of (Monitor.log_metrics cfg startup ws st)) in
  StronglySorted (fun p q => Monitor.point_key p <= Monitor.point_key q)
    (Monitor.load_memory versions d)
  /\ StronglySorted (fun p q => Monitor.point_key p <= Monitor.point_key q)
       (Monitor.load_cpu versions d)
  /\ (forall k,
        filter (fun p => Monitor.point_key p =? k) (Monitor.load_memory versions d)
        = map Monitor.memory_point
            (filter (fun r => (Monitor.m_slot_no r =? k)
                              && tagged versions (Monitor.m_version r))
               (Monitor.memory_metrics d)))
  /\ (forall k,
        filter (fun p => Monitor.point_key p =? k) (Monitor.load_cpu versions d)
        = map Monitor.cpu_point
            (filter (fun r => (Monitor.c_slot_no r =? k)
                              && tagged versions (Monitor.c_version r))
               (Monitor.cpu_metrics d)))
  /\ Regenerate.load_metrics d versions
     = (Monitor.load_memory versions d, Monitor.load_cpu versions d).
Proof.
  intros d. split; [apply load_memory_sorted|].
  split; [apply load_cpu_sorted|].
  split; [intros k; apply load_memory_stable|].
  split; [intros k; apply load_cpu_stable|].
  reflexivity.
Qed.


(* ================================================================== *)
(** * Listing the versions *)
(* ================================================================== *)

Lemma string_eqb_eq (a b : string) : String.eqb a b = true <-> a = b.
Proof. apply String.eqb_eq. Qed.

Lemma first_records_sorted (d : Monitor.Db) (l : list Monitor.version_row) :
  StronglySorted
    (key_before Monitor.v_timestamp (fun t1 t2 => String.leb t2 t1)) l ->
  Forall (fun r => first_recorded d (Monitor.v_version r) = Some (Monitor.v_timestamp r)) l ->
  most_recent_first (first_recorded d) (map Monitor.v_version l).
Proof.
  unfold most_recent_first.
  induction 1 as [|x l Hs IH Hx]; intros HF; simpl; constructor.
  - apply IH. inversion HF; assumption.
  - apply Forall_map. inversion HF as [|? ? Fx Fl]; subst.
    rewrite Forall_forall in *. intros y Hy.
    rewrite (Fl y Hy), Fx. simpl. exact (Hx y Hy).
Qed.

Example one_sample_each_listed_and_loaded :
  Monitor.distinct_versions Scenario.one_sample_each = ["v2"; "v1"]
  /\ Monitor.load_memory ["v1"; "v2"] Scenario.one_sample_each
     = [(5, Some 100%float, "v1"); (7, Some 200%float, "v2")]
  /\ Monitor.load_memory ["v2"] Scenario.one_sample_each
     = [(7, Some 200%float, "v2")]
  /\ Monitor.load_cpu ["v1"; "v2"] Scenario.one_sample_each = [].
Proof. repeat split; reflexivity. Qed.

(** X25: what the version query yields.  [distinct_versions] (and
    [load_versions]) lists every tag that occurs in a version record,
    each once, in the order of the timestamps of the tags' first
    records, latest first. *)
Theorem distinct_versions_first_record_order (d : Monitor.Db) :
  NoDup (Monitor.distinct_versions d)
  /\ (forall v, In v (Monitor.distinct_versions d)
                <-> In v (map Monitor.v_version (Monitor.db_sync_version d)))
  /\ most_recent_first (first_recorded d) (Monitor.distinct_versions d)
  /\ Regenerate.load_versions d = Monitor.distinct_versions d.
Proof.
  unfold Monitor.distinct_versions.
  set (kept := Sql.select_distinct Monitor.v_version String.eqb (Monitor.db_sync_version d)).
  set (geb := fun t1 t2 : string => String.leb t2 t1).
  pose proof (order_by_perm Monitor.v_timestamp geb kept) as P.
  split; [|split; [|split]].
  - eapply Permutation_NoDup.
    + apply Permutation_sym, Permutation_map, P.
    + apply (distinct_scan_NoDup Monitor.v_version String.eqb string_eqb_eq).
  - intros v. split; intros H.
    + eapply Permutation_in in H; [|apply Permutation_map, P].
      apply (distinct_scan_keys Monitor.v_version String.eqb string_eqb_eq) in H.
      tauto.
    + eapply Permutation_in; [apply Permutation_sym, Permutation_map, P|].
      apply (distinct_scan_keys Monitor.v_version String.eqb string_eqb_eq).
      simpl. tauto.
  - apply first_records_sorted.
    + apply order_by_sorted.
      * intros a b. apply string_geb_total.
      * intros a b c H1 H2. unfold geb in *. eapply string_leb_trans; eassumption.
    + rewrite Forall_forall. intros r Hr.
      eapply Permutation_in in Hr; [|exact P].
      unfold first_recorded.
      rewrite (distinct_scan_first Monitor.v_version String.eqb string_eqb_eq [] _ r Hr).
      reflexivity.
  - reflexivity.
Qed.

(** C2: the tags are not listed most-recent-first.  v1 ran, then v2,
    then v1 again: the latest record belongs to v1, yet the query lists
    v2 first.  [ORDER BY timestamp DESC] sorts one row per tag, and the
    row [DISTINCT] keeps for a tag is the first one scanned, not the
    latest. *)
Lemma distinct_versions_not_latest_first :
  Monitor.distinct_versions Scenario.resumed_v1 = ["v2"; "v1"]
  /\ last_recorded Scenario.resumed_v1 "v1" = Some "2025-01-03T10:00:00"
  /\ last_recorded Scenario.resumed_v1 "v2" = Some "2025-01-02T10:00:00"
  /\ ~ most_recent_first (last_recorded Scenario.resumed_v1)
         (Monitor.distinct_versions Scenario.resumed_v1).
Proof.
  split; [reflexivity|]. split; [reflexivity|]. split; [reflexivity|].
  intros H.
  change (Monitor.distinct_versions Scenario.resumed_v1) with ["v2"; "v1"] in H.
  inversion H as [|? ? _ HF]; subst.
  inversion HF as [|? ? Hc _]; subst.
  vm_compute in Hc. discriminate.
Qed.

(* ================================================================== *)
(** * Properties of the sampling loop *)
(* ================================================================== *)

(** C10: both extractors put [None] under [interrupts], and every cpu
    row that the sampling loop appends has a null [interrupts] column,
    in [db-sync-process-monitor] and in [simple-db-sync-monitor] alike:
    the cpu table after any run is the table before it followed by rows
    whose [interrupts] is [None]; on a fresh file these are all rows. *)
Theorem cpu_interrupts_always_null (cfg : Monitor.Config)
  (startup : list Psutil.proc_entry) (ws : list Monitor.World) (st : Monitor.State)
  (ws' : list Simple.World) (st' : Simple.State)
  (p : Psutil.Process) (count : option Z) :
  match Monitor.get_cpu_details p with
  | Some c => Monitor.d_interrupts c = None
  | None => True
  end
  /\ match Simple.get_cpu_details count p with
     | Py.Ok (Some c, _) => Simple.d_interrupts c = None
     | _ => True
     end
  /\ (exists added,
        Monitor.cpu_metrics
          (Monitor.db (Monitor.state_of (Monitor.log_metrics cfg startup ws st)))
        = Monitor.cpu_metrics (Monitor.db st) ++ added
        /\ Forall (fun r => Monitor.c_interrupts r = None) added)
  /\ (exists added,
        Simple.cpu_metrics
          (Simple.db (Simple.state_of (Simple.log_metrics startup ws' st')))
        = Simple.cpu_metrics (Simple.db st') ++ added
        /\ Forall (fun r => Simple.c_interrupts r = None) added)
  /\ Forall (fun r => Monitor.c_interrupts r = None)
       (Monitor.cpu_metrics
          (Monitor.db (Monitor.state_of
             (Monitor.log_metrics cfg startup ws
                {| Monitor.db := Monitor.init_db None; Monitor.out := Monitor.out st |})))).
Proof.
  assert (HM : forall st0, exists added,
             Monitor.cpu_metrics
               (Monitor.db (Monitor.state_of (Monitor.log_metrics cfg startup ws st0)))
             = Monitor.cpu_metrics (Monitor.db st0) ++ added
             /\ Forall (fun r => Monitor.c_interrupts r = None) added).
  { intros st0. unfold Monitor.log_metrics.
    destruct (Monitor.get_process startup) as [q|]; [|apply monitor_loop_cpu_rows].
    destruct (Psutil.cpu_percent q); [apply monitor_loop_cpu_rows|].
    exists []. simpl. split; [rewrite app_nil_r; reflexivity | constructor]. }
  split.
  { destruct (Monitor.get_cpu_details p) as [c|] eqn:E; [|exact I].
    eapply monitor_cpu_details_interrupts; eassumption. }
  split.
  { destruct (Simple.get_cpu_details count p) as [[[c|] printed]|e] eqn:E; try exact I.
    eapply simple_cpu_details_interrupts; eassumption. }
  split; [apply HM|].
  split.
  { unfold Simple.log_metrics.
    destruct (Simple.get_process startup) as [q|]; [|apply simple_loop_cpu_rows].
    destruct (Psutil.cpu_percent q); [apply simple_loop_cpu_rows|].
    exists []. simpl. split; [rewrite app_nil_r; reflexivity | constructor]. }
  destruct (HM {| Monitor.db := Monitor.init_db None; Monitor.out := Monitor.out st |})
    as [added [E F]].
  rewrite E. simpl. exact F.
Qed.

(** A tick without marker, whatever the state it starts from. *)
Lemma marker_unavailable_tick (cfg : Monitor.Config) (w : Monitor.World)
  (st : Monitor.State) :
  fst (Monitor.get_slot_no (Monitor.pg_slot w)) = None ->
  Monitor.tick cfg w st
  = Monitor.Continue
      {| Monitor.db := Monitor.db st;
         Monitor.out := Monitor.out st
                        ++ snd (Monitor.get_slot_no (Monitor.pg_slot w)) ++ [Sleep 10] |}.
Proof.
  intros H. unfold Monitor.tick.
  destruct (Monitor.get_slot_no (Monitor.pg_slot w)) as [slot printed].
  simpl in H. subst slot. unfold Monitor.emit. simpl.
  rewrite <- app_assoc. reflexivity.
Qed.

(** As long as the marker stays unavailable the loop keeps retrying. *)
Lemma marker_unavailable_repeats (cfg : Monitor.Config) (w : Monitor.World)
  (ws : list Monitor.World) :
  fst (Monitor.get_slot_no (Monitor.pg_slot w)) = None ->
  forall (k : nat) (st : Monitor.State),
    Monitor.log_metrics_loop cfg (repeat w k ++ ws) st
    = Monitor.log_metrics_loop cfg ws
        {| Monitor.db := Monitor.db st;
           Monitor.out :=
             Monitor.out st
             ++ List.concat (repeat (snd (Monitor.get_slot_no (Monitor.pg_slot w))
                                ++ [Sleep 10]) k) |}.
Proof.
  intros H. induction k as [|k IH]; intros st.
  - simpl. rewrite app_nil_r. destruct st; reflexivity.
  - simpl repeat. simpl app. simpl List.concat.
    change (Monitor.log_metrics_loop cfg (w :: repeat w k ++ ws) st)
      with (match Monitor.tick cfg w st with
            | Monitor.Continue st' => Monitor.log_metrics_loop cfg (repeat w k ++ ws) st'
            | Monitor.Crashed e st' => Monitor.Crashed e st'
            end).
    rewrite (marker_unavailable_tick cfg w st H), IH. simpl.
    rewrite <- !app_assoc. reflexivity.
Qed.

(** C6: when [get_slot_no] yields no marker, the tick leaves all three
    tables untouched, does nothing but print what [get_slot_no] printed
    and sleep 10 seconds, and returns to the loop test.  The loop does
    not end there: if the flag is found cleared it returns normally, and
    otherwise its next iteration is a whole tick, run from the start on
    the state the skipped tick left; while the marker stays unavailable
    this repeats, one sleep per round and no row written. *)
Theorem marker_unavailable_skips_and_retries (cfg : Monitor.Config)
  (w : Monitor.World) (ws : list Monitor.World) (st : Monitor.State) :
  fst (Monitor.get_slot_no (Monitor.pg_slot w)) = None ->
  exists st',
    Monitor.tick cfg w st = Monitor.Continue st'
    /\ Monitor.db st' = Monitor.db st
    /\ Monitor.out st'
       = Monitor.out st ++ snd (Monitor.get_slot_no (Monitor.pg_slot w)) ++ [Sleep 10]
    /\ Monitor.log_metrics_loop cfg (w :: ws) st = Monitor.log_metrics_loop cfg ws st'
    /\ Monitor.log_metrics_loop cfg [w] st = Monitor.Continue st'
    /\ (forall (w2 : Monitor.World) (rest : list Monitor.World),
          Monitor.log_metrics_loop cfg (w :: w2 :: rest) st
          = match Monitor.tick cfg w2 st' with
            | Monitor.Continue s => Monitor.log_metrics_loop cfg rest s
            | Monitor.Crashed e s => Monitor.Crashed e s
            end)
    /\ (forall k : nat,
          Monitor.log_metrics_loop cfg (repeat w k ++ ws) st
          = Monitor.log_metrics_loop cfg ws
              {| Monitor.db := Monitor.db st;
                 Monitor.out :=
                   Monitor.out st
                   ++ List.concat (repeat (snd (Monitor.get_slot_no (Monitor.pg_slot w))
                                      ++ [Sleep 10]) k) |}).
Proof.
  intros H. pose proof (marker_unavailable_tick cfg w st H) as Ht.
  eexists. split; [exact Ht|].
  split; [reflexivity|]. split; [reflexivity|].
  split; [simpl; rewrite Ht; reflexivity|].
  split; [simpl; rewrite Ht; reflexivity|].
  split; [intros w2 rest; simpl; rewrite Ht; reflexivity|].
  intros k. apply (marker_unavailable_repeats cfg w ws H k st).
Qed.

(** The same at a tick whose marker query fails, on a fresh store and
    with one more tick queued. *)
Lemma marker_unavailable_skips_and_retries_witness :
  fst (Monitor.get_slot_no (Monitor.pg_slot Scenario.marker_failed_tick)) = None
  /\ exists st',
       Monitor.tick Scenario.cfg Scenario.marker_failed_tick Scenario.fresh
       = Monitor.Continue st'
       /\ Monitor.db st' = Monitor.db Scenario.fresh
       /\ Monitor.out st'
          = Monitor.out Scenario.fresh
            ++ snd (Monitor.get_slot_no (Monitor.pg_slot Scenario.marker_failed_tick))
            ++ [Sleep 10]
       /\ Monitor.log_metrics_loop Scenario.cfg
            (Scenario.marker_failed_tick :: [Scenario.healthy_tick]) Scenario.fresh
          = Monitor.log_metrics_loop Scenario.cfg [Scenario.healthy_tick] st'
       /\ Monitor.log_metrics_loop Scenario.cfg [Scenario.marker_failed_tick]
            Scenario.fresh
          = Monitor.Continue st'
       /\ (forall (w2 : Monitor.World) (rest : list Monitor.World),
             Monitor.log_metrics_loop Scenario.cfg
               (Scenario.marker_failed_tick :: w2 :: rest) Scenario.fresh
             = match Monitor.tick Scenario.cfg w2 st' with
               | Monitor.Continue s => Monitor.log_metrics_loop Scenario.cfg rest s
               | Monitor.Crashed e s => Monitor.Crashed e s
               end)
       /\ (forall k : nat,
             Monitor.log_metrics_loop Scenario.cfg
               (repeat Scenario.marker_failed_tick k ++ [Scenario.healthy_tick])
               Scenario.fresh
             = Monitor.log_metrics_loop Scenario.cfg [Scenario.healthy_tick]
                 {| Monitor.db := Monitor.db Scenario.fresh;
                    Monitor.out :=
                      Monitor.out Scenario.fresh
                      ++ List.concat
                           (repeat
                              (snd (Monitor.get_slot_no
                                      (Monitor.pg_slot Scenario.marker_failed_tick))
                               ++ [Sleep 10]) k) |}).
Proof.
  split.
  - reflexivity.
  - apply (marker_unavailable_skips_and_retries Scenario.cfg
             Scenario.marker_failed_tick [Scenario.healthy_tick] Scenario.fresh).
    reflexivity.
Defined.

(** The status line can be built exactly when the sync percent is known. *)
Lemma status_line_raises_iff (slot : Z) (sync : option float)
  (cpu : option Monitor.cpu_details) (mem : option Monitor.mem_details) :
  Monitor.status_line slot sync cpu mem = Py.Raise Py.TypeError <-> sync = None.
Proof.
  unfold Monitor.status_line. destruct sync; simpl; split; intros H;
    try discriminate; reflexivity.
Qed.

(** With marker and sync percent at hand, the tick ends by printing one
    status line and sleeping; a missing cpu or memory sample shows as
    the placeholder [N/A]. *)
Lemma tick_prints_one_status_line (cfg : Monitor.Config) (w : Monitor.World)
  (st : Monitor.State) (slot : Z) (x : float) :
  fst (Monitor.get_slot_no (Monitor.pg_slot w)) = Some slot ->
  fst (Monitor.get_sync_percent (Monitor.pg_sync w)) = Some x ->
  exists st' cpu mem,
    Monitor.tick cfg w st = Monitor.Continue st'
    /\ Monitor.out st'
       = Monitor.out st
         ++ snd (Monitor.get_slot_no (Monitor.pg_slot w))
         ++ snd (Monitor.get_sync_percent (Monitor.pg_sync w))
         ++ [Print [Py.FLit "Slot "; Py.FInt slot; Py.FLit " | Sync Progress: ";
                    Py.FFixed2 x; Py.FLit "% | "; Py.FLit "CPU "; cpu;
                    Py.FLit "% | RSS "; mem; Py.FLit "MB"];
             Sleep 10]
    /\ (cpu = Py.FLit "N/A" \/ exists v, cpu = Py.FFloat v)
    /\ (mem = Py.FLit "N/A" \/ exists v, mem = Py.FFloat v).
Proof.
  intros Hs Hp. unfold Monitor.tick.
  destruct (Monitor.get_slot_no (Monitor.pg_slot w)) as [s printed].
  simpl in Hs. subst s.
  destruct (Monitor.get_sync_percent (Monitor.pg_sync w)) as [sp printed'].
  simpl in Hp. subst sp. simpl.
  destruct (Monitor.get_process (Monitor.processes w)) as [p|];
    [destruct (Monitor.get_memory_details p), (Monitor.get_cpu_details p)|];
    simpl;
    (eexists; eexists; eexists; split; [reflexivity|]; simpl;
     split; [rewrite <- !app_assoc; reflexivity|]; split; eauto).
Qed.

(** C4, at a tick where the marker is known, the process is found and
    the sync-percent query fails: formatting [None] with [.2f] raises
    [TypeError] after the version record is written; no status line is
    printed, and the loop ends there instead of running the next tick. *)
Theorem status_line_raises_without_sync_percent :
  Monitor.get_sync_percent (Monitor.pg_sync Scenario.sync_failed_tick)
  = (None, [Print [Py.FLit "Error fetching sync percent: "; Py.FLit "connection refused"]])
  /\ (exists st',
        Monitor.tick Scenario.cfg Scenario.sync_failed_tick Scenario.fresh
        = Monitor.Crashed Py.TypeError st'
        /\ Monitor.out st'
           = [Print [Py.FLit "Error fetching sync percent: "; Py.FLit "connection refused"]]
        /\ Monitor.db_sync_version (Monitor.db st')
           = [{| Monitor.v_timestamp := "2025-01-01T10:00:00";
                 Monitor.v_version := Scenario.ver |}]
        /\ Monitor.log_metrics_loop Scenario.cfg
             [Scenario.sync_failed_tick; Scenario.healthy_tick] Scenario.fresh
           = Monitor.Crashed Py.TypeError st').
Proof.
  split; [reflexivity|].
  eexists. split; [reflexivity|].
  split; [reflexivity|]. split; reflexivity.
Qed.

(** Without a matching process a tick adds no memory row and no cpu row,
    however it ends. *)
Lemma not_found_writes_no_sample (cfg : Monitor.Config) (w : Monitor.World)
  (st : Monitor.State) :
  Monitor.get_process (Monitor.processes w) = None ->
  Monitor.memory_metrics (Monitor.db (Monitor.state_of (Monitor.tick cfg w st)))
  = Monitor.memory_metrics (Monitor.db st)
  /\ Monitor.cpu_metrics (Monitor.db (Monitor.state_of (Monitor.tick cfg w st)))
     = Monitor.cpu_metrics (Monitor.db st).
Proof.
  intros H. rewrite monitor_tick_db, H.
  destruct (fst (Monitor.get_slot_no (Monitor.pg_slot w))); simpl; auto.
Qed.

(** Without a matching process the loop goes on whenever the sync
    percent is known or the marker is not. *)
Lemma not_found_continues_with_sync (cfg : Monitor.Config) (w : Monitor.World)
  (st : Monitor.State) :
  Monitor.get_process (Monitor.processes w) = None ->
  fst (Monitor.get_slot_no (Monitor.pg_slot w)) = None
  \/ fst (Monitor.get_sync_percent (Monitor.pg_sync w)) <> None ->
  exists st', Monitor.tick cfg w st = Monitor.Continue st'.
Proof.
  intros H Hs. unfold Monitor.tick. rewrite H.
  destruct (Monitor.get_slot_no (Monitor.pg_slot w)) as [[slot|] printed]; simpl in *;
    [|eexists; reflexivity].
  destruct (Monitor.get_sync_percent (Monitor.pg_sync w)) as [[x|] printed']; simpl in *.
  - eexists; reflexivity.
  - destruct Hs as [Hs|Hs]; [discriminate | contradiction].
Qed.

(** In [simple-db-sync-monitor] a tick without a matching process only
    sleeps. *)
Lemma simple_not_found_only_sleeps (w : Simple.World) (st : Simple.State) :
  Simple.get_process (Simple.processes w) = None ->
  Simple.tick w st = Simple.Continue (Simple.emit [Sleep 10] st).
Proof. intros H. unfold Simple.tick. rewrite H. reflexivity. Qed.

(** C5, at a tick where no process matches, the marker is known and the
    sync-percent query fails: no memory row and no cpu row is written,
    but the tick raises [TypeError] while building the status line, so
    the loop does not reach the next tick. *)
Theorem not_found_tick_raises_without_sync_percent :
  Monitor.get_process (Monitor.processes Scenario.not_found_sync_failed_tick) = None
  /\ (exists st',
        Monitor.tick Scenario.cfg Scenario.not_found_sync_failed_tick Scenario.fresh
        = Monitor.Crashed Py.TypeError st'
        /\ Monitor.memory_metrics (Monitor.db st') = []
        /\ Monitor.cpu_metrics (Monitor.db st') = []
        /\ Monitor.log_metrics_loop Scenario.cfg
             [Scenario.not_found_sync_failed_tick; Scenario.healthy_tick] Scenario.fresh
           = Monitor.Crashed Py.TypeError st').
Proof.
  split; [reflexivity|].
  eexists. split; [reflexivity|].
  split; [reflexivity|]. split; reflexivity.
Qed.

(* ================================================================== *)
(** * Optional memory fields *)
(* ================================================================== *)

Lemma zero_bytes_in_mb : Py.truediv_int 0 (1024 ^ 2) = 0%float.
Proof. reflexivity. Qed.

(** In [db-sync-process-monitor] a field that psutil does not provide is
    extracted as the number 0.0. *)
Lemma monitor_absent_fields_are_zero (p : Psutil.Process)
  (m : Monitor.mem_details) (mfi : Psutil.pfullmem) :
  Monitor.get_memory_details p = Some m ->
  Psutil.memory_full_info p = Py.Ok mfi ->
  (Psutil.uss mfi = None -> Monitor.d_uss m = 0%float)
  /\ (Psutil.pss mfi = None -> Monitor.d_pss m = 0%float)
  /\ (Psutil.swap mfi = None -> Monitor.d_swap m = 0%float).
Proof.
  unfold Monitor.get_memory_details. intros H E.
  destruct (Psutil.memory_info p) as [mi|e]; simpl in H; [|discriminate].
  rewrite E in H. simpl in H. inversion H; subst; simpl.
  repeat split; intros A; rewrite A; reflexivity.
Qed.

(** The memory rows it inserts never hold NULL in those columns. *)
Lemma monitor_memory_row_never_null (slot : Z) (m : Monitor.mem_details) (ver : string) :
  Monitor.m_uss (Monitor.memory_row_of slot m ver) <> None
  /\ Monitor.m_pss (Monitor.memory_row_of slot m ver) <> None
  /\ Monitor.m_swap (Monitor.memory_row_of slot m ver) <> None.
Proof. simpl. repeat split; discriminate. Qed.

(** In [simple-db-sync-monitor] the same fields are extracted as [None]
    and inserted as NULL. *)
Lemma simple_absent_fields_are_null (p : Psutil.Process)
  (m : Simple.mem_details) (mfi : Psutil.pfullmem) (timestamp : string) :
  Simple.get_memory_details p = Py.Ok (Some m) ->
  Psutil.memory_full_info p = Py.Ok mfi ->
  (Psutil.uss mfi = None -> Simple.m_uss (Simple.memory_row_of timestamp m) = None)
  /\ (Psutil.pss mfi = None -> Simple.m_pss (Simple.memory_row_of timestamp m) = None)
  /\ (Psutil.swap mfi = None -> Simple.m_swap (Simple.memory_row_of timestamp m) = None).
Proof.
  unfold Simple.get_memory_details. intros H E.
  destruct (Psutil.memory_info p) as [mi|e]; simpl in H.
  - rewrite E in H. simpl in H.
    destruct (Psutil.getattr (Psutil.shared mi)) as [sh|e]; simpl in H.
    + inversion H; subst; simpl. repeat split; intros A; rewrite A; reflexivity.
    + destruct (Simple.handled e); discriminate.
  - destruct (Simple.handled e); discriminate.
Qed.


(** C1, on a platform without [pss] and [swap]: the tick of
    [db-sync-process-monitor] stores 0.0 in both columns, not NULL, while
    the extractor of [simple-db-sync-monitor] yields [None] for the same
    two fields. *)
Theorem monitor_missing_memory_fields_become_zero :
  Psutil.memory_full_info Scenario.db_sync_no_pss
  = Py.Ok {| Psutil.uss := Some 104857600; Psutil.pss := None; Psutil.swap := None |}
  /\ map (fun r => (Monitor.m_uss r, Monitor.m_pss r, Monitor.m_swap r))
       (Monitor.memory_metrics
          (Monitor.db (Monitor.state_of
             (Monitor.tick Scenario.cfg Scenario.healthy_tick Scenario.fresh))))
     = [(Some 100%float, Some 0%float, Some 0%float)]
  /\ (exists m,
        Simple.get_memory_details Scenario.db_sync_shared_no_pss = Py.Ok (Some m)
        /\ Simple.d_uss m = Some 100%float
        /\ Simple.d_pss m = None
        /\ Simple.d_swap m = None).
Proof.
  split; [reflexivity|]. split; [reflexivity|].
  eexists. split; [reflexivity|]. repeat split; reflexivity.
Qed.

(* ================================================================== *)
(** * Choosing versions *)
(* ================================================================== *)

Lemma getitem_out_of_range {A : Type} (l : list A) (i : Z) :
  Z.of_nat (List.length l) <= i \/ i < - Z.of_nat (List.length l) ->
  Py.getitem l i = Py.Raise Py.IndexError.
Proof.
  intros H. unfold Py.getitem.
  destruct (i <? 0) eqn:Ei.
  - apply Z.ltb_lt in Ei.
    destruct ((0 <=? i + Z.of_nat (List.length l))
              && (i + Z.of_nat (List.length l) <? Z.of_nat (List.length l))) eqn:E;
      [|reflexivity].
    apply andb_true_iff in E. destruct E as [E1 E2].
    apply Z.leb_le in E1. lia.
  - apply Z.ltb_ge in Ei.
    destruct ((0 <=? i) && (i <? Z.of_nat (List.length l))) eqn:E; [|reflexivity].
    apply andb_true_iff in E. destruct E as [E1 E2].
    apply Z.ltb_lt in E2. lia.
Qed.

Lemma Forall2_In_l {A B : Type} (R : A -> B -> Prop) (xs : list A) (ys : list B) (x : A) :
  Forall2 R xs ys -> In x xs -> exists y, In y ys /\ R x y.
Proof.
  induction 1 as [|a b xs ys Hab HF IH]; simpl; intros Hin.
  - contradiction.
  - destruct Hin as [Hx|Hin].
    + subst. exists b. auto.
    + destruct (IH Hin) as [y [Hy Hr]]. exists y. auto.
Qed.

Lemma Forall2_compose {A B C : Type} (R : A -> B -> Prop) (S : B -> C -> Prop)
  (xs : list A) (ys : list B) (zs : list C) :
  Forall2 R xs ys -> Forall2 S ys zs ->
  Forall2 (fun x z => exists y, R x y /\ S y z) xs zs.
Proof.
  intros H. revert zs. induction H as [|a b xs ys Hab HF IH]; intros zs HS.
  - inversion HS. constructor.
  - inversion HS as [|? c ? zs' Hbc HS']; subst.
    constructor; [exists b; auto | apply IH; exact HS'].
Qed.

(** Neither selection path writes to the store. *)
Lemma selection_reads_only (d : Monitor.Db) (sel : string) :
  snd (Monitor.run_iteration d sel) = d /\ snd (Regenerate.main d sel) = d.
Proof.
  unfold Monitor.run_iteration, Regenerate.main. split.
  - destruct (Monitor.distinct_versions d); [reflexivity|].
    destruct (Monitor.choose _ sel); reflexivity.
  - destruct (Regenerate.load_versions d); [reflexivity|].
    destruct (Regenerate.choose _ sel); [|reflexivity].
    destruct (Regenerate.load_metrics d a); reflexivity.
Qed.

(** A selection accepted by regenerate-plots has one version per token. *)
Lemma regenerate_choose_whole (versions : list string) (sel : string)
  (chosen : list string) :
  Regenerate.choose versions sel = Py.Ok chosen ->
  Forall2 (fun tok v => exists k, Py.int (Py.strip tok) = Py.Ok k
                                  /\ Py.getitem versions (k - 1) = Py.Ok v)
    (Py.split "," sel) chosen.
Proof.
  unfold Regenerate.choose. intros H.
  destruct (Py.comprehension _ (Py.split "," sel)) as [idxs|e] eqn:E1; simpl in H;
    [|discriminate].
  apply comprehension_ok in E1. apply comprehension_ok in H.
  eapply Forall2_impl; [|eapply Forall2_compose; [exact E1 | exact H]].
  intros tok v [i [Hi Hv]]. simpl in Hi.
  destruct (Py.int (Py.strip tok)) as [k|e]; simpl in Hi; [|discriminate].
  inversion Hi; subst. exists k. auto.
Qed.

(** regenerate-plots rejects the whole selection as soon as one token is
    unusable in the sense above. *)
Lemma regenerate_rejects_unusable (d : Monitor.Db) (sel tok : string) :
  Regenerate.load_versions d <> [] ->
  In tok (Py.split "," sel) ->
  unusable (List.length (Regenerate.load_versions d)) (Py.strip tok) ->
  Regenerate.main d sel = (Regenerate.InvalidSelection, d).
Proof.
  intros Hne Hin Hbad. unfold Regenerate.main.
  destruct (Regenerate.load_versions d) as [|v vs] eqn:Ev; [contradiction|].
  assert (Hr : exists e, Regenerate.choose (v :: vs) sel = Py.Raise e).
  { unfold Regenerate.choose.
    destruct (Py.comprehension _ (Py.split "," sel)) as [idxs|e] eqn:E1; simpl;
      [|exists e; reflexivity].
    apply comprehension_ok in E1.
    destruct (Forall2_In_l _ _ _ _ E1 Hin) as [i [Hi Hf]].
    destruct Hbad as [Hv|[k [Hk Hrange]]]; rewrite ?Hv, ?Hk in Hf; simpl in Hf;
      [discriminate|].
    inversion Hf; subst i.
    apply comprehension_raises. exists (k - 1), Py.IndexError. split; [exact Hi|].
    apply getitem_out_of_range. lia. }
  destruct Hr as [e Hr]. rewrite Hr. reflexivity.
Qed.

(** In [Monitor.run] the same selections raise, and nothing catches the
    exception. *)
Lemma monitor_unusable_is_uncaught (d : Monitor.Db) (sel tok : string) :
  Monitor.distinct_versions d <> [] ->
  In tok (Py.split "," sel) ->
  unusable (List.length (Monitor.distinct_versions d)) tok ->
  exists e, Monitor.run_iteration d sel = (Monitor.Uncaught e, d).
Proof.
  intros Hne Hin Hbad. unfold Monitor.run_iteration.
  destruct (Monitor.distinct_versions d) as [|v vs] eqn:Ev; [contradiction|].
  assert (Hr : exists e, Monitor.choose (v :: vs) sel = Py.Raise e).
  { unfold Monitor.choose. apply comprehension_raises.
    destruct Hbad as [Hv|[k [Hk Hrange]]].
    - exists tok, Py.ValueError. split; [exact Hin|]. rewrite Hv. reflexivity.
    - exists tok, Py.IndexError. split; [exact Hin|]. rewrite Hk. simpl.
      apply getitem_out_of_range. lia. }
  destruct Hr as [e Hr]. rewrite Hr. exists e. reflexivity.
Qed.

(** C3, with the two versions v2 and v1 listed: the index 0 lies outside
    [1, 2], yet both scripts accept it and select the last version, also
    as part of a longer selection; and in [Monitor.run] a non-numeric
    token or an index above the length is an exception that nothing
    catches, which ends the main thread. *)
Theorem selection_zero_accepted_and_error_uncaught :
  Monitor.distinct_versions Scenario.two_versions = ["v2"; "v1"]
  /\ Monitor.run_iteration Scenario.two_versions "0"
     = (Monitor.Plotted ["v1"] [] [], Scenario.two_versions)
  /\ Regenerate.main Scenario.two_versions "0"
     = (Regenerate.Saved ["v1"] [] [], Scenario.two_versions)
  /\ Regenerate.main Scenario.two_versions "1,0"
     = (Regenerate.Saved ["v2"; "v1"] [] [], Scenario.two_versions)
  /\ Monitor.run_iteration Scenario.two_versions "x"
     = (Monitor.Uncaught Py.ValueError, Scenario.two_versions)
  /\ Monitor.run_iteration Scenario.two_versions "3"
     = (Monitor.Uncaught Py.IndexError, Scenario.two_versions).
Proof. repeat split; reflexivity. Qed.

(* ================================================================== *)
(** * Further properties: the sampling loop of db-sync-process-monitor *)
(* ================================================================== *)

(** The rows one tick appends to each table. *)
Lemma monitor_tick_appends (cfg : Monitor.Config) (w : Monitor.World) (st : Monitor.State) :
  let d := Monitor.db st in
  let d' := Monitor.db (Monitor.state_of (Monitor.tick cfg w st)) in
  let ver := Monitor.get_db_sync_version cfg in
  match fst (Monitor.get_slot_no (Monitor.pg_slot w)) with
  | None => d' = d
  | Some slot =>
      Monitor.memory_metrics d'
      = Monitor.memory_metrics d
        ++ match Monitor.get_process (Monitor.processes w) with
           | Some p =>
               match Monitor.get_memory_details p with
               | Some m => [Monitor.memory_row_of slot m ver]
               | None => []
               end
           | None => []
           end
      /\ Monitor.cpu_metrics d'
         = Monitor.cpu_metrics d
           ++ match Monitor.get_process (Monitor.processes w) with
              | Some p =>
                  match Monitor.get_cpu_details p with
                  | Some c => [Monitor.cpu_row_of slot c ver]
                  | None => []
                  end
              | None => []
              end
      /\ Monitor.db_sync_version d'
         = Monitor.db_sync_version d
           ++ [{| Monitor.v_timestamp := Monitor.now w; Monitor.v_version := ver |}]
  end.
Proof.
  intros d d' ver. unfold d'. rewrite monitor_tick_db.
  destruct (fst (Monitor.get_slot_no (Monitor.pg_slot w))) as [slot|]; [|reflexivity].
  simpl. fold d. fold ver.
  destruct (Monitor.get_process (Monitor.processes w)) as [p|]; simpl.
  - destruct (Monitor.get_memory_details p), (Monitor.get_cpu_details p); simpl;
      rewrite ?app_nil_r; auto.
  - rewrite !app_nil_r. auto.
Qed.

Lemma sleeps_app (a b : list event) : sleeps (a ++ b) = (sleeps a + sleeps b)%nat.
Proof. unfold sleeps. rewrite filter_app, length_app. reflexivity. Qed.

Lemma get_slot_no_prints_only (reply : pg_reply Z) :
  sleeps (snd (Monitor.get_slot_no reply)) = 0%nat.
Proof. destruct reply; reflexivity. Qed.

Lemma get_sync_percent_prints_only (reply : pg_reply float) :
  sleeps (snd (Monitor.get_sync_percent reply)) = 0%nat.
Proof. destruct reply; reflexivity. Qed.

(** How a tick ends, and what it has printed and slept by then. *)
Lemma monitor_tick_end (cfg : Monitor.Config) (w : Monitor.World) (st : Monitor.State) :
  match Monitor.tick cfg w st with
  | Monitor.Crashed e st' =>
      e = Py.TypeError
      /\ lacks_sync_percent w = true
      /\ Monitor.out st'
         = Monitor.out st ++ snd (Monitor.get_slot_no (Monitor.pg_slot w))
           ++ snd (Monitor.get_sync_percent (Monitor.pg_sync w))
  | Monitor.Continue st' =>
      lacks_sync_percent w = false
      /\ exists printed,
           Monitor.out st' = Monitor.out st ++ printed ++ [Sleep 10]
           /\ sleeps printed = 0%nat
  end.
Proof.
  unfold Monitor.tick, lacks_sync_percent.
  pose proof (get_slot_no_prints_only (Monitor.pg_slot w)) as Hs.
  pose proof (get_sync_percent_prints_only (Monitor.pg_sync w)) as Hp.
  destruct (Monitor.get_slot_no (Monitor.pg_slot w)) as [[slot|] printed]; simpl in *.
  - destruct (Monitor.get_sync_percent (Monitor.pg_sync w)) as [[x|] printed']; simpl in *.
    + split; [reflexivity|].
      destruct (Monitor.get_process (Monitor.processes w)) as [p|];
        [destruct (Monitor.get_memory_details p), (Monitor.get_cpu_details p)|];
        simpl;
        (eexists (printed ++ printed' ++ [Print _]); split;
         [rewrite <- !app_assoc; reflexivity
         | rewrite !sleeps_app, Hs, Hp; reflexivity]).
    + split; [reflexivity|]. split; [reflexivity|].
      destruct (Monitor.get_process (Monitor.processes w)) as [p|];
        [destruct (Monitor.get_memory_details p), (Monitor.get_cpu_details p)|];
        simpl; rewrite <- !app_assoc; reflexivity.
  - split; [destruct (fst (Monitor.get_sync_percent (Monitor.pg_sync w))); reflexivity|].
    exists printed. split; [rewrite <- app_assoc; reflexivity | exact Hs].
Qed.

Lemma monitor_tick_sleeps (cfg : Monitor.Config) (w : Monitor.World) (st : Monitor.State) :
  match Monitor.tick cfg w st with
  | Monitor.Crashed e st' =>
      e = Py.TypeError /\ lacks_sync_percent w = true
      /\ sleeps (Monitor.out st') = sleeps (Monitor.out st)
  | Monitor.Continue st' =>
      lacks_sync_percent w = false
      /\ sleeps (Monitor.out st') = S (sleeps (Monitor.out st))
  end.
Proof.
  pose proof (monitor_tick_end cfg w st) as H.
  destruct (Monitor.tick cfg w st) as [st'|e st'].
  - destruct H as [Hl [printed [Ho Hs]]]. split; [exact Hl|].
    rewrite Ho, !sleeps_app, Hs. simpl. unfold sleeps at 2. simpl. lia.
  - destruct H as [He [Hl Ho]]. split; [exact He|]. split; [exact Hl|].
    rewrite Ho, !sleeps_app, get_slot_no_prints_only, get_sync_percent_prints_only. lia.
Qed.

(** What a tick has printed when it ends, event by event. *)
Lemma monitor_tick_output (cfg : Monitor.Config) (w : Monitor.World)
  (st : Monitor.State) :
  let proc := Monitor.get_process (Monitor.processes w) in
  let mem := match proc with Some p => Monitor.get_memory_details p | None => None end in
  let cpu := match proc with Some p => Monitor.get_cpu_details p | None => None end in
  match Monitor.tick cfg w st with
  | Monitor.Crashed e st' =>
      Monitor.out st'
      = Monitor.out st
        ++ match Monitor.pg_sync w with
           | PgError msg => [Print [Py.FLit "Error fetching sync percent: "; Py.FLit msg]]
           | _ => []
           end
  | Monitor.Continue st' =>
      match fst (Monitor.get_slot_no (Monitor.pg_slot w)) with
      | None =>
          Monitor.out st'
          = Monitor.out st ++ snd (Monitor.get_slot_no (Monitor.pg_slot w)) ++ [Sleep 10]
      | Some slot =>
          exists (x : float) (l : Py.line),
            fst (Monitor.get_sync_percent (Monitor.pg_sync w)) = Some x
            /\ Monitor.status_line slot (Some x) cpu mem = Py.Ok l
            /\ Monitor.out st' = Monitor.out st ++ [Print l; Sleep 10]
      end
  end.
Proof.
  cbv zeta. unfold Monitor.tick.
  destruct (Monitor.pg_slot w) as [msg| |[slot|]]; simpl;
    try (rewrite <- ?app_assoc; reflexivity).
  destruct (Monitor.pg_sync w) as [msg'| |[x|]]; simpl;
    destruct (Monitor.get_process (Monitor.processes w)) as [p|];
    try destruct (Monitor.get_memory_details p);
    try destruct (Monitor.get_cpu_details p);
    simpl; rewrite ?app_nil_r, <- ?app_assoc; try reflexivity;
    (eexists; eexists; split; [reflexivity|]; split; reflexivity).
Qed.

(** X1: a tick of [log_metrics] raises exactly when it has a marker but
    no sync percent; the exception is then [TypeError], raised before
    the status line is printed and before the sleep: all the tick has
    printed by then is the error message of [get_sync_percent], if its
    query failed.  Every other tick returns to the loop test and ends
    with one sleep of 10 seconds; with a marker, the status line is
    printed right before that sleep and nothing else is printed. *)
Theorem tick_raises_exactly_without_sync_percent (cfg : Monitor.Config)
  (w : Monitor.World) (st : Monitor.State) :
  let proc := Monitor.get_process (Monitor.processes w) in
  let mem := match proc with Some p => Monitor.get_memory_details p | None => None end in
  let cpu := match proc with Some p => Monitor.get_cpu_details p | None => None end in
  match Monitor.tick cfg w st with
  | Monitor.Crashed e st' =>
      e = Py.TypeError
      /\ lacks_sync_percent w = true
      /\ sleeps (Monitor.out st') = sleeps (Monitor.out st)
      /\ Monitor.out st'
         = Monitor.out st
           ++ match Monitor.pg_sync w with
              | PgError msg =>
                  [Print [Py.FLit "Error fetching sync percent: "; Py.FLit msg]]
              | _ => []
              end
  | Monitor.Continue st' =>
      lacks_sync_percent w = false
      /\ sleeps (Monitor.out st') = S (sleeps (Monitor.out st))
      /\ (exists before, Monitor.out st' = before ++ [Sleep 10])
      /\ match fst (Monitor.get_slot_no (Monitor.pg_slot w)) with
         | None =>
             Monitor.out st'
             = Monitor.out st
               ++ snd (Monitor.get_slot_no (Monitor.pg_slot w)) ++ [Sleep 10]
         | Some slot =>
             exists (x : float) (l : Py.line),
               fst (Monitor.get_sync_percent (Monitor.pg_sync w)) = Some x
               /\ Monitor.status_line slot (Some x) cpu mem = Py.Ok l
               /\ Monitor.out st' = Monitor.out st ++ [Print l; Sleep 10]
         end
  end.
Proof.
  cbv zeta.
  pose proof (monitor_tick_end cfg w st) as H.
  pose proof (monitor_tick_output cfg w st) as Ho'. cbv zeta in Ho'.
  destruct (Monitor.tick cfg w st) as [st'|e st'].
  - destruct H as [Hl [printed [Ho Hs]]]. split; [exact Hl|]. split.
    + rewrite Ho, !sleeps_app, Hs. simpl. unfold sleeps at 2. simpl. lia.
    + split; [|exact Ho'].
      exists (Monitor.out st ++ printed). rewrite Ho, app_assoc. reflexivity.
  - destruct H as [He [Hl Ho]]. split; [exact He|]. split; [exact Hl|].
    split; [|exact Ho'].
    rewrite Ho, !sleeps_app, get_slot_no_prints_only, get_sync_percent_prints_only. lia.
Qed.

(** X2: the loop runs the ticks in order and stops at the first one that
    has a marker but no sync percent, with [TypeError]; the ticks after
    it are never run.  It sleeps exactly once for every tick it
    completes. *)
Theorem loop_stops_at_first_tick_without_sync_percent (cfg : Monitor.Config)
  (ws : list Monitor.World) (st : Monitor.State) :
  match Monitor.log_metrics_loop cfg ws st with
  | Monitor.Continue st' =>
      existsb lacks_sync_percent ws = false
      /\ sleeps (Monitor.out st') = (sleeps (Monitor.out st) + List.length ws)%nat
  | Monitor.Crashed e st' =>
      e = Py.TypeError
      /\ exists before w after,
           ws = before ++ w :: after
           /\ existsb lacks_sync_percent before = false
           /\ lacks_sync_percent w = true
           /\ sleeps (Monitor.out st') = (sleeps (Monitor.out st) + List.length before)%nat
           /\ Monitor.Crashed e st'
              = Monitor.log_metrics_loop cfg (before ++ [w]) st
  end.
Proof.
  revert st. induction ws as [|w ws IH]; intros st; simpl.
  - split; [reflexivity | lia].
  - pose proof (monitor_tick_sleeps cfg w st) as Ht.
    destruct (Monitor.tick cfg w st) as [st1|e st1] eqn:Et.
    + destruct Ht as [Hl Hs]. specialize (IH st1).
      destruct (Monitor.log_metrics_loop cfg ws st1) as [st'|e st'] eqn:El.
      * destruct IH as [Hn Hc]. rewrite Hl, Hn. split; [reflexivity|]. lia.
      * destruct IH as [He [before [w' [after [Hw [Hb [Hl' [Hc Hr]]]]]]]].
        split; [exact He|]. exists (w :: before), w', after.
        split; [rewrite Hw; reflexivity|].
        split; [simpl; rewrite Hl, Hb; reflexivity|].
        split; [exact Hl'|]. split; [simpl; lia|].
        simpl. rewrite Et. exact Hr.
    + destruct Ht as [He [Hl Hs]]. split; [exact He|].
      exists [], w, ws. simpl. rewrite Et. repeat split; auto. lia.
Qed.

(** What a run of the loop appends: rows built by the three [INSERT]s,
    never more memory or cpu rows than version records. *)
Lemma monitor_loop_appends (cfg : Monitor.Config)
  (Pm : Monitor.memory_row -> Prop) (Pc : Monitor.cpu_row -> Prop)
  (Pv : Monitor.version_row -> Prop) :
  (forall slot p m, Monitor.get_memory_details p = Some m ->
     Pm (Monitor.memory_row_of slot m (Monitor.get_db_sync_version cfg))) ->
  (forall slot p c, Monitor.get_cpu_details p = Some c ->
     Pc (Monitor.cpu_row_of slot c (Monitor.get_db_sync_version cfg))) ->
  (forall ts, Pv {| Monitor.v_timestamp := ts;
                    Monitor.v_version := Monitor.get_db_sync_version cfg |}) ->
  forall (ws : list Monitor.World) (st : Monitor.State),
  exists mem cpu vers,
    let d' := Monitor.db (Monitor.state_of (Monitor.log_metrics_loop cfg ws st)) in
    Monitor.memory_metrics d' = Monitor.memory_metrics (Monitor.db st) ++ mem
    /\ Monitor.cpu_metrics d' = Monitor.cpu_metrics (Monitor.db st) ++ cpu
    /\ Monitor.db_sync_version d' = Monitor.db_sync_version (Monitor.db st) ++ vers
    /\ Forall Pm mem /\ Forall Pc cpu /\ Forall Pv vers
    /\ (List.length mem <= List.length vers)%nat
    /\ (List.length cpu <= List.length vers)%nat.
Proof.
  intros Hm Hc Hv ws. induction ws as [|w ws IH]; intros st; simpl.
  - exists [], [], []. simpl. rewrite !app_nil_r. repeat split; auto.
  - assert (Ht : exists mem cpu vers,
               let d1 := Monitor.db (Monitor.state_of (Monitor.tick cfg w st)) in
               Monitor.memory_metrics d1 = Monitor.memory_metrics (Monitor.db st) ++ mem
               /\ Monitor.cpu_metrics d1 = Monitor.cpu_metrics (Monitor.db st) ++ cpu
               /\ Monitor.db_sync_version d1 = Monitor.db_sync_version (Monitor.db st) ++ vers
               /\ Forall Pm mem /\ Forall Pc cpu /\ Forall Pv vers
               /\ (List.length mem <= List.length vers)%nat
               /\ (List.length cpu <= List.length vers)%nat).
    { pose proof (monitor_tick_appends cfg w st) as H. simpl in H.
      destruct (fst (Monitor.get_slot_no (Monitor.pg_slot w))) as [slot|].
      - destruct H as [E1 [E2 E3]].
        eexists. eexists. eexists. simpl.
        split; [exact E1|]. split; [exact E2|]. split; [exact E3|].
        destruct (Monitor.get_process (Monitor.processes w)) as [p|].
        + destruct (Monitor.get_memory_details p) eqn:Em,
                   (Monitor.get_cpu_details p) eqn:Ec;
            repeat split; simpl; repeat constructor; eauto.
        + repeat split; simpl; repeat constructor; eauto.
      - exists [], [], []. simpl. rewrite H, !app_nil_r. repeat split; auto. }
    destruct Ht as [m1 [c1 [v1 [E1 [E2 [E3 [F1 [F2 [F3 [L1 L2]]]]]]]]]].
    destruct (Monitor.tick cfg w st) as [st1|e st1]; simpl in *.
    + destruct (IH st1) as [m2 [c2 [v2 [G1 [G2 [G3 [K1 [K2 [K3 [M1 M2]]]]]]]]]].
      exists (m1 ++ m2), (c1 ++ c2), (v1 ++ v2).
      rewrite G1, G2, G3, E1, E2, E3, !app_assoc, !length_app.
      repeat split; try apply Forall_app; auto; lia.
    + exists m1, c1, v1. repeat split; auto.
Qed.

(** The same for [log_metrics], whose priming step writes nothing. *)
Lemma monitor_run_appends (cfg : Monitor.Config)
  (Pm : Monitor.memory_row -> Prop) (Pc : Monitor.cpu_row -> Prop)
  (Pv : Monitor.version_row -> Prop) :
  (forall slot p m, Monitor.get_memory_details p = Some m ->
     Pm (Monitor.memory_row_of slot m (Monitor.get_db_sync_version cfg))) ->
  (forall slot p c, Monitor.get_cpu_details p = Some c ->
     Pc (Monitor.cpu_row_of slot c (Monitor.get_db_sync_version cfg))) ->
  (forall ts, Pv {| Monitor.v_timestamp := ts;
                    Monitor.v_version := Monitor.get_db_sync_version cfg |}) ->
  forall (startup : list Psutil.proc_entry) (ws : list Monitor.World) (st : Monitor.State),
  exists mem cpu vers,
    let d' := Monitor.db (Monitor.state_of (Monitor.log_metrics cfg startup ws st)) in
    Monitor.memory_metrics d' = Monitor.memory_metrics (Monitor.db st) ++ mem
    /\ Monitor.cpu_metrics d' = Monitor.cpu_metrics (Monitor.db st) ++ cpu
    /\ Monitor.db_sync_version d' = Monitor.db_sync_version (Monitor.db st) ++ vers
    /\ Forall Pm mem /\ Forall Pc cpu /\ Forall Pv vers
    /\ (List.length mem <= List.length vers)%nat
    /\ (List.length cpu <= List.length vers)%nat.
Proof.
  intros Hm Hc Hv startup ws st. unfold Monitor.log_metrics.
  destruct (Monitor.get_process startup) as [p|];
    [destruct (Psutil.cpu_percent p)|];
    try (apply monitor_loop_appends; assumption).
  exists [], [], []. simpl. rewrite !app_nil_r. repeat split; auto.
Qed.

(** X3: a run of [log_metrics] only appends.  The rows that were in the
    three tables stay where they are, and every appended row carries the
    tag built from the configuration; a run never appends more memory
    rows or more cpu rows than version records. *)
Theorem run_appends_rows_tagged_with_configured_version (cfg : Monitor.Config)
  (startup : list Psutil.proc_entry) (ws : list Monitor.World) (st : Monitor.State) :
  exists mem cpu vers,
    let d' := Monitor.db (Monitor.state_of (Monitor.log_metrics cfg startup ws st)) in
    let ver := Monitor.get_db_sync_version cfg in
    Monitor.memory_metrics d' = Monitor.memory_metrics (Monitor.db st) ++ mem
    /\ Monitor.cpu_metrics d' = Monitor.cpu_metrics (Monitor.db st) ++ cpu
    /\ Monitor.db_sync_version d' = Monitor.db_sync_version (Monitor.db st) ++ vers
    /\ Forall (fun r => Monitor.m_version r = ver) mem
    /\ Forall (fun r => Monitor.c_version r = ver) cpu
    /\ Forall (fun r => Monitor.v_version r = ver) vers
    /\ (List.length mem <= List.length vers)%nat
    /\ (List.length cpu <= List.length vers)%nat.
Proof.
  apply (monitor_run_appends cfg
           (fun r => Monitor.m_version r = Monitor.get_db_sync_version cfg)
           (fun r => Monitor.c_version r = Monitor.get_db_sync_version cfg)
           (fun r => Monitor.v_version r = Monitor.get_db_sync_version cfg));
    intros; reflexivity.
Qed.

(** X4: [log_metrics] of db-sync-process-monitor never writes NULL into
    a metric column of [memory_metrics], and into no column of
    [cpu_metrics] other than [interrupts]. *)
Theorem monitor_appended_rows_have_no_null_metric (cfg : Monitor.Config)
  (startup : list Psutil.proc_entry) (ws : list Monitor.World) (st : Monitor.State) :
  exists mem cpu,
    let d' := Monitor.db (Monitor.state_of (Monitor.log_metrics cfg startup ws st)) in
    Monitor.memory_metrics d' = Monitor.memory_metrics (Monitor.db st) ++ mem
    /\ Monitor.cpu_metrics d' = Monitor.cpu_metrics (Monitor.db st) ++ cpu
    /\ Forall (fun r => Monitor.m_rss r <> None /\ Monitor.m_vms r <> None
                        /\ Monitor.m_uss r <> None /\ Monitor.m_pss r <> None
                        /\ Monitor.m_swap r <> None /\ Monitor.m_shared r <> None) mem
    /\ Forall (fun r => Monitor.c_cpu_percent r <> None /\ Monitor.c_user_time r <> None
                        /\ Monitor.c_system_time r <> None
                        /\ Monitor.c_children_user r <> None
                        /\ Monitor.c_children_system r <> None
                        /\ Monitor.c_iowait r <> None
                        /\ Monitor.c_ctx_switches r <> None) cpu.
Proof.
  destruct (monitor_run_appends cfg
              (fun r => Monitor.m_rss r <> None /\ Monitor.m_vms r <> None
                        /\ Monitor.m_uss r <> None /\ Monitor.m_pss r <> None
                        /\ Monitor.m_swap r <> None /\ Monitor.m_shared r <> None)
              (fun r => Monitor.c_cpu_percent r <> None /\ Monitor.c_user_time r <> None
                        /\ Monitor.c_system_time r <> None
                        /\ Monitor.c_children_user r <> None
                        /\ Monitor.c_children_system r <> None
                        /\ Monitor.c_iowait r <> None
                        /\ Monitor.c_ctx_switches r <> None)
              (fun _ => True)) with (startup := startup) (ws := ws) (st := st)
    as [mem [cpu [vers [E1 [E2 [_ [F1 [F2 _]]]]]]]].
  - intros. simpl. repeat split; discriminate.
  - intros. simpl. repeat split; discriminate.
  - intros. exact I.
  - exists mem, cpu. auto.
Qed.

Lemma distinct_versions_In (d : Monitor.Db) (v : string) :
  In v (Monitor.distinct_versions d)
  <-> In v (map Monitor.v_version (Monitor.db_sync_version d)).
Proof.
  unfold Monitor.distinct_versions.
  set (kept := Sql.select_distinct Monitor.v_version String.eqb (Monitor.db_sync_version d)).
  pose proof (order_by_perm Monitor.v_timestamp (fun t1 t2 => String.leb t2 t1) kept) as P.
  split; intros H.
  - eapply Permutation_in in H; [|apply Permutation_map, P].
    apply (distinct_scan_keys Monitor.v_version String.eqb string_eqb_eq) in H. tauto.
  - eapply Permutation_in; [apply Permutation_sym, Permutation_map, P|].
    apply (distinct_scan_keys Monitor.v_version String.eqb string_eqb_eq).
    simpl. tauto.
Qed.

(** X5: if every sample in the store carries a tag that [run] lists,
    the same holds after a run of [log_metrics], also when the run ends
    with an exception: a version record is written in every tick that
    writes a sample.  So every sample can be selected for comparison. *)
Theorem samples_stay_listed (cfg : Monitor.Config)
  (startup : list Psutil.proc_entry) (ws : list Monitor.World) (st : Monitor.State) :
  samples_listed (Monitor.db st) ->
  samples_listed (Monitor.db (Monitor.state_of (Monitor.log_metrics cfg startup ws st))).
Proof.
  intros [Hm Hc].
  destruct (monitor_run_appends cfg
              (fun r => Monitor.m_version r = Monitor.get_db_sync_version cfg)
              (fun r => Monitor.c_version r = Monitor.get_db_sync_version cfg)
              (fun r => Monitor.v_version r = Monitor.get_db_sync_version cfg))
    with (startup := startup) (ws := ws) (st := st)
    as [mem [cpu [vers H]]]; try (intros; reflexivity).
  cbv zeta in H. destruct H as [E1 [E2 [E3 [F1 [F2 [F3 [L1 L2]]]]]]].
  set (d' := Monitor.db (Monitor.state_of (Monitor.log_metrics cfg startup ws st))) in *.
  assert (Hold : forall v, In v (Monitor.distinct_versions (Monitor.db st)) ->
                           In v (Monitor.distinct_versions d')).
  { intros v H. apply distinct_versions_In. rewrite E3, map_app.
    apply in_or_app. left. apply distinct_versions_In. exact H. }
  assert (Hnew : vers <> [] ->
                 In (Monitor.get_db_sync_version cfg) (Monitor.distinct_versions d')).
  { destruct vers as [|r vers']; [congruence|]. intros _.
    apply distinct_versions_In. rewrite E3, map_app. apply in_or_app. right.
    simpl. left. inversion F3; subst. assumption. }
  rewrite Forall_forall in F1, F2.
  split.
  - intros r Hr. rewrite E1 in Hr. apply in_app_or in Hr. destruct Hr as [Hr|Hr].
    + apply Hold, Hm, Hr.
    + rewrite (F1 r Hr). apply Hnew.
      destruct vers; [|discriminate]. destruct mem; simpl in *; [contradiction | lia].
  - intros r Hr. rewrite E2 in Hr. apply in_app_or in Hr. destruct Hr as [Hr|Hr].
    + apply Hold, Hc, Hr.
    + rewrite (F2 r Hr). apply Hnew.
      destruct vers; [|discriminate]. destruct cpu; simpl in *; [contradiction | lia].
Qed.

(** The same on a fresh store, for a run whose second tick raises. *)
Lemma samples_stay_listed_witness :
  samples_listed (Monitor.db Scenario.fresh)
  /\ samples_listed
       (Monitor.db (Monitor.state_of
          (Monitor.log_metrics Scenario.cfg (Scenario.running Scenario.db_sync_no_pss)
             [Scenario.healthy_tick; Scenario.sync_failed_tick] Scenario.fresh))).
Proof.
  assert (H : samples_listed (Monitor.db Scenario.fresh))
    by (split; intros r Hr; destruct Hr).
  split.
  - exact H.
  - apply (samples_stay_listed Scenario.cfg (Scenario.running Scenario.db_sync_no_pss)
             [Scenario.healthy_tick; Scenario.sync_failed_tick] Scenario.fresh).
    exact H.
Defined.










(* ================================================================== *)
(** * Further properties: locating the process and extracting *)
(* ================================================================== *)

Lemma monitor_get_process_spec (ps : list Psutil.proc_entry) :
  match Monitor.get_process ps with
  | Some p =>
      exists before e after,
        ps = before ++ e :: after
        /\ existsb matches before = false
        /\ matches e = true
        /\ Psutil.proc e = p
  | None => existsb matches ps = false
  end.
Proof.
  induction ps as [|e ps IH]; simpl; [reflexivity|].
  fold (matches e). destruct (matches e) eqn:Em.
  - exists [], e, ps. auto.
  - destruct (Monitor.get_process ps) as [p|].
    + destruct IH as [before [e' [after [Hps [Hb [He Hp]]]]]].
      exists (e :: before), e', after. simpl. rewrite Em, Hps. auto.
    + simpl. exact IH.
Qed.

(** X7: [get_process] returns the first process, in iteration order,
    whose arguments joined by spaces contain [cardano-db-sync], and
    [None] exactly when no process does; a process whose command line
    could not be read, or is empty, is never chosen.  Both monitors
    locate the process in the same way. *)
Theorem get_process_returns_first_match (ps : list Psutil.proc_entry)
  (q : Psutil.Process) :
  match Monitor.get_process ps with
  | Some p =>
      exists before e after,
        ps = before ++ e :: after
        /\ existsb matches before = false
        /\ matches e = true
        /\ Psutil.proc e = p
  | None => existsb matches ps = false
  end
  /\ Simple.get_process ps = Monitor.get_process ps
  /\ matches {| Psutil.cmdline := None; Psutil.proc := q |} = false
  /\ matches {| Psutil.cmdline := Some []; Psutil.proc := q |} = false.
Proof.
  split; [apply monitor_get_process_spec|].
  split; [|split; reflexivity].
  induction ps as [|e ps IH]; simpl; [reflexivity|]. rewrite IH. reflexivity.
Qed.

(** X8: each extractor of db-sync-process-monitor yields a sample
    exactly when every psutil call it makes succeeds; an exception of
    any kind in any one call costs the whole sample, also the fields
    that were already read. *)
Theorem monitor_extractors_need_every_call (p : Psutil.Process) :
  (Monitor.get_memory_details p = None
   <-> (exists e, Psutil.memory_info p = Py.Raise e)
       \/ (exists e, Psutil.memory_full_info p = Py.Raise e))
  /\ (Monitor.get_cpu_details p = None
      <-> (exists e, Psutil.cpu_times p = Py.Raise e)
          \/ (exists e, Psutil.cpu_percent p = Py.Raise e)
          \/ (exists e, Psutil.num_ctx_switches p = Py.Raise e)).
Proof.
  unfold Monitor.get_memory_details, Monitor.get_cpu_details. split.
  - destruct (Psutil.memory_info p) as [mi|e1]; simpl.
    + destruct (Psutil.memory_full_info p) as [mfi|e2]; simpl.
      * split; [discriminate|]. intros [[e H]|[e H]]; discriminate.
      * split; [eauto | reflexivity].
    + split; [eauto | reflexivity].
  - destruct (Psutil.cpu_times p) as [t|e1]; simpl.
    + destruct (Psutil.cpu_percent p) as [x|e2]; simpl.
      * destruct (Psutil.num_ctx_switches p) as [c|e3]; simpl.
        -- split; [discriminate|]. intros [[e H]|[[e H]|[e H]]]; discriminate.
        -- split; [eauto | reflexivity].
      * split; [eauto | reflexivity].
    + split; [eauto | reflexivity].
Qed.

(* ================================================================== *)
(** * Further properties: loading and plotting *)
(* ================================================================== *)

Section FilterSorted.

Context {A K : Type}.
Variable key : A -> K.
Variable leb : K -> K -> bool.
Hypothesis leb_trans :
  forall a b c, leb a b = true -> leb b c = true -> leb a c = true.



Hypothesis leb_total : forall a b, leb a b = false -> leb b a = true.


End FilterSorted.






Lemma tagged_same_set (vs1 vs2 : list string) (x : string) :
  (forall v, In v vs1 <-> In v vs2) -> tagged vs1 x = tagged vs2 x.
Proof.
  intros H. unfold tagged. apply eq_true_iff_eq. rewrite !existsb_exists.
  split; intros [v [Hv E]]; exists v; split; try exact E; apply H; exact Hv.
Qed.

(** X10: what [load_memory] and [load_cpu] return depends only on which
    tags are requested, not on their order or on how often a tag is
    named: a version selected twice is not loaded twice. *)
Theorem load_depends_on_the_set_of_tags (vs1 vs2 : list string) (d : Monitor.Db) :
  (forall v, In v vs1 <-> In v vs2) ->
  Monitor.load_memory vs1 d = Monitor.load_memory vs2 d
  /\ Monitor.load_cpu vs1 d = Monitor.load_cpu vs2 d.
Proof.
  intros H. unfold Monitor.load_memory, Monitor.load_cpu, Sql.where_in.
  split; apply (f_equal (map _)); apply (f_equal (Sql.order_by _ _));
    apply filter_ext; intros r; apply (tagged_same_set vs1 vs2 _ H).
Qed.

(** The same for the selections [1,2,1] and [2,1] of the two versions. *)
Lemma load_depends_on_the_set_of_tags_witness :
  (forall v, In v ["v2"; "v1"; "v2"] <-> In v ["v1"; "v2"])
  /\ Monitor.load_memory ["v2"; "v1"; "v2"] Scenario.one_sample_each
     = Monitor.load_memory ["v1"; "v2"] Scenario.one_sample_each
  /\ Monitor.load_cpu ["v2"; "v1"; "v2"] Scenario.one_sample_each
     = Monitor.load_cpu ["v1"; "v2"] Scenario.one_sample_each.
Proof.
  assert (H : forall v, In v ["v2"; "v1"; "v2"] <-> In v ["v1"; "v2"])
    by (intros v; simpl; tauto).
  split; [exact H|].
  apply (load_depends_on_the_set_of_tags ["v2"; "v1"; "v2"] ["v1"; "v2"]
           Scenario.one_sample_each H).
Defined.

(* ================================================================== *)
(** * Further properties: choosing versions *)
(* ================================================================== *)

Lemma lstrip_no_leading_space (s : string) :
  match Py.lstrip s with
  | String c _ => Py.isspace c = false
  | EmptyString => True
  end.
Proof.
  induction s as [|c s IH]; simpl; [exact I|].
  destruct (Py.isspace c) eqn:E; [exact IH | exact E].
Qed.

Lemma lstrip_fixed (t : string) :
  match t with String c _ => Py.isspace c = false | EmptyString => True end ->
  Py.lstrip t = t.
Proof. destruct t as [|c t]; simpl; [reflexivity|]. intros H. rewrite H. reflexivity. Qed.

Lemma rstrip_keeps_head (t : string) :
  match t with String c _ => Py.isspace c = false | EmptyString => True end ->
  match Py.rstrip t with String c _ => Py.isspace c = false | EmptyString => True end.
Proof.
  destruct t as [|c t]; simpl; [auto|]. intros H.
  destruct (Py.rstrip t); [rewrite H|]; exact H.
Qed.

Lemma rstrip_idempotent (s : string) : Py.rstrip (Py.rstrip s) = Py.rstrip s.
Proof.
  induction s as [|c s IH]; simpl; [reflexivity|].
  destruct (Py.rstrip s) as [|c2 r2] eqn:E.
  - destruct (Py.isspace c) eqn:Ec; simpl; [reflexivity|]. rewrite Ec. reflexivity.
  - change (Py.rstrip (String c (String c2 r2)))
      with (match Py.rstrip (String c2 r2) with
            | EmptyString => if Py.isspace c then EmptyString else String c EmptyString
            | r => String c r
            end).
    rewrite IH. reflexivity.
Qed.

Lemma strip_idempotent (s : string) : Py.strip (Py.strip s) = Py.strip s.
Proof.
  unfold Py.strip.
  rewrite (lstrip_fixed (Py.rstrip (Py.lstrip s))).
  - apply rstrip_idempotent.
  - apply rstrip_keeps_head, lstrip_no_leading_space.
Qed.

(** The white space of [int] is white space for [str.strip] too, and no
    character of a number is white space. *)
Lemma int_space_isspace (c : ascii) : Py.int_space c = true -> Py.isspace c = true.
Proof.
  destruct c as [[] [] [] [] [] [] [] []]; vm_compute; intros H;
    first [reflexivity | discriminate H].
Qed.

Lemma not_isspace_not_int_space (c : ascii) :
  Py.isspace c = false -> Py.int_space c = false.
Proof.
  intros H. destruct (Py.int_space c) eqn:E; [|reflexivity].
  apply int_space_isspace in E. congruence.
Qed.

Lemma digit_not_space (c : ascii) : Py.is_digit c = true -> Py.isspace c = false.
Proof.
  destruct c as [[] [] [] [] [] [] [] []]; vm_compute; intros H;
    first [reflexivity | discriminate H].
Qed.

Lemma parse_digits_no_space (s : string) : forall (acc : Z) (b : bool) (z : Z),
  Py.parse_digits s acc b = Some z ->
  Forall (fun c => Py.isspace c = false) (list_ascii_of_string s).
Proof.
  induction s as [|c s IH]; simpl; intros acc b z H; [constructor|].
  destruct (Py.is_digit c) eqn:Ed.
  - constructor; [apply digit_not_space; exact Ed | eapply IH; exact H].
  - destruct (Ascii.eqb c "_") eqn:Eu; [|discriminate].
    apply Ascii.eqb_eq in Eu. subst c. destruct b; [|discriminate].
    constructor; [reflexivity | eapply IH; exact H].
Qed.

Lemma parse_signed_no_space (t : string) (z : Z) :
  Py.parse_signed t = Some z ->
  t <> EmptyString
  /\ Forall (fun c => Py.isspace c = false) (list_ascii_of_string t).
Proof.
  destruct t as [|c r]; [discriminate|]. unfold Py.parse_signed. intros H.
  split; [discriminate|].
  destruct (Ascii.eqb c "+") eqn:Ep.
  - apply Ascii.eqb_eq in Ep. subst c. constructor; [reflexivity|].
    eapply parse_digits_no_space; exact H.
  - destruct (Ascii.eqb c "-") eqn:Em.
    + apply Ascii.eqb_eq in Em. subst c. constructor; [reflexivity|].
      destruct (Py.parse_digits r 0 false) as [z'|] eqn:E; [|discriminate].
      eapply parse_digits_no_space; exact E.
    + eapply parse_digits_no_space; exact H.
Qed.

Lemma no_space_rstrip (t : string) :
  Forall (fun c => Py.isspace c = false) (list_ascii_of_string t) -> Py.rstrip t = t.
Proof.
  induction t as [|c t IH]; simpl; intros H; [reflexivity|].
  inversion H as [|c' l Hc Ht]; subst. rewrite (IH Ht).
  destruct t; [rewrite Hc|]; reflexivity.
Qed.

Lemma no_space_int_rstrip (t : string) :
  Forall (fun c => Py.isspace c = false) (list_ascii_of_string t) -> Py.int_rstrip t = t.
Proof.
  induction t as [|c t IH]; simpl; intros H; [reflexivity|].
  inversion H as [|c' l Hc Ht]; subst. rewrite (IH Ht).
  destruct t; [rewrite (not_isspace_not_int_space _ Hc)|]; reflexivity.
Qed.

Lemma no_space_int_lstrip (t : string) :
  Forall (fun c => Py.isspace c = false) (list_ascii_of_string t) -> Py.int_lstrip t = t.
Proof.
  destruct t as [|c t]; simpl; intros H; [reflexivity|].
  inversion H as [|c' l Hc Ht]; subst.
  rewrite (not_isspace_not_int_space _ Hc). reflexivity.
Qed.

Lemma lstrip_int_lstrip (s : string) : Py.lstrip (Py.int_lstrip s) = Py.lstrip s.
Proof.
  induction s as [|c s IH]; simpl; [reflexivity|].
  destruct (Py.int_space c) eqn:E; [|reflexivity].
  rewrite (int_space_isspace _ E). exact IH.
Qed.

Lemma rstrip_int_rstrip (s : string) : Py.rstrip (Py.int_rstrip s) = Py.rstrip s.
Proof.
  induction s as [|c s IH]; simpl; [reflexivity|].
  destruct (Py.int_rstrip s) as [|c2 r2] eqn:E.
  - rewrite <- IH. simpl.
    destruct (Py.int_space c) eqn:Ec.
    + rewrite (int_space_isspace _ Ec). reflexivity.
    + reflexivity.
  - rewrite <- IH. reflexivity.
Qed.

Lemma int_rstrip_head (u : string) (c : ascii) (r : string) :
  Py.int_rstrip u = String c r -> exists u', u = String c u'.
Proof.
  destruct u as [|x u]; simpl; [discriminate|].
  destruct (Py.int_rstrip u).
  - destruct (Py.int_space x); [discriminate|]. intros H. inversion H; subst. eauto.
  - intros H. inversion H; subst. eauto.
Qed.

(** Where [int] finds a number, [str.strip] leaves exactly the text of
    that number. *)
Lemma strip_of_number (s : string) (z : Z) :
  Py.parse_signed (Py.int_rstrip (Py.int_lstrip s)) = Some z ->
  Py.strip s = Py.int_rstrip (Py.int_lstrip s).
Proof.
  intros H. apply parse_signed_no_space in H. destruct H as [Hne Hns].
  unfold Py.strip. rewrite <- (lstrip_int_lstrip s).
  destruct (Py.int_rstrip (Py.int_lstrip s)) as [|c r] eqn:E; [congruence|].
  destruct (int_rstrip_head _ c r E) as [u' Hu].
  assert (Hc : Py.isspace c = false) by (inversion Hns; assumption).
  rewrite Hu. simpl Py.lstrip. rewrite Hc. rewrite <- Hu.
  rewrite <- rstrip_int_rstrip, E. apply no_space_rstrip. exact Hns.
Qed.

(** [int] at some tokens: blanks, tabs and the no-break space around
    the number are skipped, single underscores may separate digits, a
    unit separator is not skipped, and a number of more than 4300 digits
    is refused whatever its value. *)
Example int_examples :
  Py.int " 1_0 " = Py.Ok 10
  /\ Py.int "-0" = Py.Ok 0
  /\ Py.int "007" = Py.Ok 7
  /\ Py.int (String (ascii_of_nat 160) (String (ascii_of_nat 9) "+3")) = Py.Ok 3
  /\ Py.int (String (ascii_of_nat 31) "1") = Py.Raise Py.ValueError
  /\ Py.int "1__0" = Py.Raise Py.ValueError
  /\ Py.int "1_" = Py.Raise Py.ValueError
  /\ Py.int "+ 1" = Py.Raise Py.ValueError
  /\ Py.int "" = Py.Raise Py.ValueError
  /\ Py.int (string_of_list_ascii (repeat "0"%char 4299 ++ ["1"%char])) = Py.Ok 1
  /\ Py.int (string_of_list_ascii (repeat "0"%char 4300 ++ ["1"%char]))
     = Py.Raise Py.ValueError.
Proof. repeat split; vm_compute; reflexivity. Qed.

(** A token that [int] accepts is accepted, with the same value, after
    [str.strip].  The converse fails: [str.strip] removes the separators
    28..31, which [int] does not skip. *)
Lemma int_after_strip (s : string) (k : Z) :
  Py.int s = Py.Ok k -> Py.int (Py.strip s) = Py.Ok k.
Proof.
  unfold Py.int. cbv zeta.
  destruct (Py.parse_signed (Py.int_rstrip (Py.int_lstrip s))) as [z|] eqn:E;
    [|discriminate].
  intros H. rewrite (strip_of_number s z E).
  destruct (parse_signed_no_space _ z E) as [_ Hns].
  rewrite (no_space_int_lstrip _ Hns), (no_space_int_rstrip _ Hns), E. exact H.
Qed.

Lemma comprehension_iff {A B : Type} (f : A -> Py.result B) (xs : list A) (ys : list B) :
  Py.comprehension f xs = Py.Ok ys <-> Forall2 (fun x y => f x = Py.Ok y) xs ys.
Proof.
  split; [apply comprehension_ok|].
  induction 1 as [|x y xs ys Hxy HF IH]; simpl; [reflexivity|].
  rewrite Hxy. simpl. rewrite IH. reflexivity.
Qed.

Lemma monitor_choose_iff (vers : list string) (sel : string) (chosen : list string) :
  Monitor.choose vers sel = Py.Ok chosen
  <-> Forall2 (fun tok v => exists k, Py.int tok = Py.Ok k
                                      /\ Py.getitem vers (k - 1) = Py.Ok v)
        (Py.split "," sel) chosen.
Proof.
  unfold Monitor.choose. rewrite comprehension_iff.
  split; intros H; (eapply Forall2_impl; [|exact H]); intros tok v; simpl.
  - destruct (Py.int tok) as [k|e]; simpl; [|discriminate]. eauto.
  - intros [k [Hk Hv]]. rewrite Hk. exact Hv.
Qed.

Lemma regenerate_choose_iff (vers : list string) (sel : string) (chosen : list string) :
  Regenerate.choose vers sel = Py.Ok chosen
  <-> Forall2 (fun tok v => exists k, Py.int (Py.strip tok) = Py.Ok k
                                      /\ Py.getitem vers (k - 1) = Py.Ok v)
        (Py.split "," sel) chosen.
Proof.
  split.
  - apply regenerate_choose_whole.
  - unfold Regenerate.choose. generalize (Py.split "," sel) as toks.
    intros toks H. induction H as [|tok v toks chosen [k [Hk Hv]] HF IH]; simpl.
    + reflexivity.
    + rewrite Hk. simpl.
      destruct (Py.comprehension
                  (fun x => Py.bind (Py.int (Py.strip x)) (fun n => Py.Ok (n - 1))) toks)
        as [idxs|e]; simpl in *; [|discriminate].
      rewrite Hv. simpl. rewrite IH. reflexivity.
Qed.

(** X11: every selection that db-sync-process-monitor accepts is
    accepted by regenerate-plots too, and regenerate-plots then chooses
    the same versions in the same order. *)
Theorem regenerate_accepts_what_run_accepts (vers : list string) (sel : string)
  (chosen : list string) :
  Monitor.choose vers sel = Py.Ok chosen -> Regenerate.choose vers sel = Py.Ok chosen.
Proof.
  rewrite monitor_choose_iff, regenerate_choose_iff. intros H.
  eapply Forall2_impl; [|exact H]. intros tok v [k [Hk Hv]].
  exists k. split; [apply int_after_strip; exact Hk | exact Hv].
Qed.

(** The selection [2, 1] of two listed versions, in both scripts. *)
Lemma regenerate_accepts_what_run_accepts_witness :
  Monitor.choose ["v1"; "v2"] "2, 1" = Py.Ok ["v2"; "v1"]
  /\ Regenerate.choose ["v1"; "v2"] "2, 1" = Py.Ok ["v2"; "v1"].
Proof.
  assert (H : Monitor.choose ["v1"; "v2"] "2, 1" = Py.Ok ["v2"; "v1"])
    by reflexivity.
  split; [exact H|].
  apply (regenerate_accepts_what_run_accepts ["v1"; "v2"] "2, 1" ["v2"; "v1"] H).
Defined.

(** X24: the converse fails.  regenerate-plots strips every token with
    [str.strip] before [int] reads it, and [str.strip] removes the
    separators 28..31, which [int] does not skip: for the selection made
    of the unit separator (code point 31) and the digit 1,
    regenerate-plots plots the first listed version, while [run] of
    db-sync-process-monitor ends with an uncaught [ValueError]. *)
Theorem regenerate_accepts_more_than_run :
  let sel := String (ascii_of_nat 31) "1" in
  Py.strip sel = "1"
  /\ Py.int sel = Py.Raise Py.ValueError
  /\ Regenerate.choose ["v1"; "v2"] sel = Py.Ok ["v1"]
  /\ Monitor.choose ["v1"; "v2"] sel = Py.Raise Py.ValueError
  /\ (exists mem_df cpu_df,
        fst (Regenerate.main Scenario.one_sample_each sel)
        = Regenerate.Saved [List.hd "" (Monitor.distinct_versions Scenario.one_sample_each)]
            mem_df cpu_df)
  /\ fst (Monitor.run_iteration Scenario.one_sample_each sel)
     = Monitor.Uncaught Py.ValueError.
Proof.
  cbv zeta. repeat split; try reflexivity.
  vm_compute. eauto.
Qed.





(* ================================================================== *)
(** * Further properties: the file name of regenerate-plots *)
(* ================================================================== *)

Lemma chars_append (a b : string) :
  list_ascii_of_string (String.append a b)
  = list_ascii_of_string a ++ list_ascii_of_string b.
Proof. induction a as [|c a IH]; simpl; [reflexivity | rewrite IH; reflexivity]. Qed.

Lemma replace_char_chars (old : ascii) (new s : string) (c : ascii) :
  In c (list_ascii_of_string (Py.replace_char old new s)) ->
  (In c (list_ascii_of_string s) /\ c <> old) \/ In c (list_ascii_of_string new).
Proof.
  induction s as [|x s IH]; simpl; [tauto|].
  destruct (Ascii.eqb x old) eqn:E.
  - rewrite chars_append. intros H. apply in_app_or in H.
    destruct H as [H|H]; [auto|]. destruct (IH H) as [[H1 H2]|H1]; auto.
  - simpl. intros [H|H].
    + subst c. left. split; [auto|]. apply Ascii.eqb_neq. exact E.
    + destruct (IH H) as [[H1 H2]|H1]; auto.
Qed.

Lemma concat_chars (sep : string) (l : list string) (c : ascii) :
  In c (list_ascii_of_string (String.concat sep l)) ->
  In c (list_ascii_of_string sep)
  \/ exists s, In s l /\ In c (list_ascii_of_string s).
Proof.
  induction l as [|x l IH]; simpl; [tauto|].
  destruct l as [|y l'].
  - intros H. right. exists x. auto.
  - rewrite !chars_append. intros H. apply in_app_or in H. destruct H as [H|H].
    + right. exists x. auto.
    + apply in_app_or in H. destruct H as [H|H]; [auto|].
      destruct (IH H) as [H1|[s [Hs Hc]]]; [auto|]. right. exists s. split; [right|]; auto.
Qed.

Lemma safe_name_chars (versions : list string) (c : ascii) :
  In c (list_ascii_of_string (Regenerate.safe_name versions)) ->
  c = "_"%char \/ c = "-"%char \/ (c <> " "%char /\ c <> "/"%char).
Proof.
  intros Hc. unfold Regenerate.safe_name, Py.join in Hc.
  apply concat_chars in Hc. destruct Hc as [Hc|[s [Hs Hc]]].
  - simpl in Hc. destruct Hc as [Hc|[]]. auto.
  - apply in_map_iff in Hs. destruct Hs as [v [Hv _]]. subst s.
    apply replace_char_chars in Hc. destruct Hc as [[Hc Hn]|Hc].
    + apply replace_char_chars in Hc. destruct Hc as [[Hc Hn']|Hc]; [|destruct Hc].
      right. right. auto.
    + simpl in Hc. destruct Hc as [Hc|[]]. auto.
Qed.

(** X14: the part of the output file name that [plot_and_save] builds
    from the chosen versions contains no space and no slash, whatever
    the version tags are. *)
Theorem safe_name_has_no_space_or_slash (versions : list string) :
  ~ In " "%char (list_ascii_of_string (Regenerate.safe_name versions))
  /\ ~ In "/"%char (list_ascii_of_string (Regenerate.safe_name versions)).
Proof.
  split; intros Hin; apply safe_name_chars in Hin;
    destruct Hin as [E|[E|[E1 E2]]]; try discriminate; congruence.
Qed.



(* ================================================================== *)
(** * Further properties: simple-db-sync-monitor *)
(* ================================================================== *)

Lemma app_last_two {A : Type} (l : list A) (a b : A) :
  l ++ [a; b] = (l ++ [a]) ++ [b].
Proof. rewrite <- app_assoc. reflexivity. Qed.

Lemma simple_memory_raise_unhandled (p : Psutil.Process) (e : Py.exn) :
  Simple.get_memory_details p = Py.Raise e -> Simple.handled e = false.
Proof.
  unfold Simple.get_memory_details.
  destruct (Py.bind _ _) as [d|e']; [discriminate|].
  destruct (Simple.handled e') eqn:E; [discriminate|].
  intros H. inversion H; subst. exact E.
Qed.

Lemma simple_cpu_raise_unhandled (n : option Z) (p : Psutil.Process) (e : Py.exn) :
  Simple.get_cpu_details n p = Py.Raise e -> Simple.handled e = false.
Proof.
  unfold Simple.get_cpu_details.
  destruct (Py.bind _ _) as [d|e']; [discriminate|].
  destruct (Simple.handled e') eqn:E; [discriminate|].
  intros H. inversion H; subst. exact E.
Qed.

(** X15: a tick of simple-db-sync-monitor raises only when a process is
    found and one of the two extractors meets an exception that its
    [except] clause does not name; the tick has then written and printed
    nothing, also not the sample that the other extractor had obtained.
    Any other tick ends with one sleep, and without a matching process
    it does nothing else. *)
Theorem simple_tick_raises_before_writing (w : Simple.World) (st : Simple.State) :
  match Simple.tick w st with
  | Simple.Crashed e st' =>
      st' = st
      /\ Simple.handled e = false
      /\ exists p, Simple.get_process (Simple.processes w) = Some p
           /\ (Simple.get_memory_details p = Py.Raise e
               \/ Simple.get_cpu_details (Simple.cpu_count w) p = Py.Raise e)
  | Simple.Continue st' =>
      sleeps (Simple.out st') = S (sleeps (Simple.out st))
      /\ (exists before, Simple.out st' = before ++ [Sleep 10])
      /\ match Simple.get_process (Simple.processes w) with
         | None => Simple.db st' = Simple.db st
                   /\ Simple.out st' = Simple.out st ++ [Sleep 10]
         | Some _ => True
         end
  end.
Proof.
  unfold Simple.tick.
  destruct (Simple.get_process (Simple.processes w)) as [p|]; simpl.
  - destruct (Simple.get_memory_details p) as [mem|e] eqn:Em.
    + destruct (Simple.get_cpu_details (Simple.cpu_count w) p) as [[cpu printed]|e] eqn:Ec.
      * assert (Hp : sleeps printed = 0%nat).
        { unfold Simple.get_cpu_details in Ec.
          destruct (Py.bind _ _) as [d|e']; [inversion Ec; reflexivity|].
          destruct (Simple.handled e'); inversion Ec. reflexivity. }
        destruct mem, cpu; simpl; rewrite !sleeps_app, Hp; simpl;
          (split; [unfold sleeps at 2; simpl; lia|]);
          (split; [|exact I]); eexists; apply app_last_two.
      * split; [reflexivity|]. split; [eapply simple_cpu_raise_unhandled; eassumption|].
        exists p. auto.
    + split; [reflexivity|]. split; [eapply simple_memory_raise_unhandled; eassumption|].
      exists p. auto.
  - rewrite sleeps_app. split; [unfold sleeps at 2; simpl; lia|].
    split; [exists (Simple.out st); reflexivity | auto].
Qed.

(** Without a [shared] counter the extractor of simple-db-sync-monitor
    has no sample. *)
Lemma simple_no_sample_without_shared (p : Psutil.Process) :
  match Psutil.memory_info p with
  | Py.Ok mi => Psutil.shared mi = None
  | Py.Raise _ => True
  end ->
  Simple.get_memory_details p = Py.Ok None
  \/ exists e, Simple.get_memory_details p = Py.Raise e.
Proof.
  unfold Simple.get_memory_details. intros H.
  destruct (Psutil.memory_info p) as [mi|e]; simpl.
  - destruct (Psutil.memory_full_info p) as [mfi|e]; simpl.
    + rewrite H. simpl. auto.
    + destruct (Simple.handled e); eauto.
  - destruct (Simple.handled e); eauto.
Qed.

Lemma simple_tick_no_shared (w : Simple.World) (st : Simple.State) :
  no_shared_counter w ->
  Simple.memory_metrics (Simple.db (Simple.state_of (Simple.tick w st)))
  = Simple.memory_metrics (Simple.db st).
Proof.
  unfold no_shared_counter, Simple.tick. intros H.
  destruct (Simple.get_process (Simple.processes w)) as [p|]; [|reflexivity].
  destruct (simple_no_sample_without_shared p H) as [E|[e E]]; rewrite E; [|reflexivity].
  destruct (Simple.get_cpu_details (Simple.cpu_count w) p) as [[[c|] printed]|e];
    reflexivity.
Qed.

Lemma simple_loop_no_shared (ws : list Simple.World) (st : Simple.State) :
  Forall no_shared_counter ws ->
  Simple.memory_metrics (Simple.db (Simple.state_of (Simple.log_metrics_loop ws st)))
  = Simple.memory_metrics (Simple.db st).
Proof.
  intros H. revert st. induction H as [|w ws Hw HF IH]; intros st; simpl; [reflexivity|].
  pose proof (simple_tick_no_shared w st Hw) as Ht.
  destruct (Simple.tick w st) as [st1|e st1]; simpl in *.
  - rewrite IH. exact Ht.
  - exact Ht.
Qed.

(** X16: simple-db-sync-monitor reads [mem_info.shared] without a
    default, so on a platform whose [memory_info()] has no [shared]
    field no memory row is ever written; starting from a store without
    memory rows, [plot_metrics] then always reports that there is not
    enough data, whatever the cpu table holds. *)
Theorem simple_monitor_needs_shared_counter (startup : list Psutil.proc_entry)
  (ws : list Simple.World) (st : Simple.State) (recent_mem recent_cpu : string -> bool) :
  Forall no_shared_counter ws ->
  Simple.memory_metrics (Simple.db st) = [] ->
  let d' := Simple.db (Simple.state_of (Simple.log_metrics startup ws st)) in
  Simple.memory_metrics d' = []
  /\ Simple.plot_metrics recent_mem recent_cpu d' = Simple.NotEnoughData.
Proof.
  intros H E d'.
  assert (Em : Simple.memory_metrics d' = []).
  { unfold d', Simple.log_metrics.
    destruct (Simple.get_process startup) as [p|];
      [destruct (Psutil.cpu_percent p)|];
      try (rewrite simple_loop_no_shared by exact H); exact E. }
  split; [exact Em|].
  unfold Simple.plot_metrics, Simple.load_memory. rewrite Em. reflexivity.
Qed.

(** The same for two ticks that find a process without [shared], while
    the cpu extractor succeeds and writes its rows. *)
Lemma simple_monitor_needs_shared_counter_witness :
  Forall no_shared_counter
    [Scenario.simple_tick_with Scenario.db_sync_no_pss;
     Scenario.simple_tick_with Scenario.db_sync_no_pss]
  /\ Simple.memory_metrics (Simple.db Scenario.simple_fresh) = []
  /\ (let d' := Simple.db (Simple.state_of
                  (Simple.log_metrics (Scenario.running Scenario.db_sync_no_pss)
                     [Scenario.simple_tick_with Scenario.db_sync_no_pss;
                      Scenario.simple_tick_with Scenario.db_sync_no_pss]
                     Scenario.simple_fresh)) in
      Simple.memory_metrics d' = []
      /\ Simple.plot_metrics (fun _ => true) (fun _ => true) d' = Simple.NotEnoughData)
  /\ List.length
       (Simple.cpu_metrics
          (Simple.db (Simple.state_of
             (Simple.log_metrics (Scenario.running Scenario.db_sync_no_pss)
                [Scenario.simple_tick_with Scenario.db_sync_no_pss;
                 Scenario.simple_tick_with Scenario.db_sync_no_pss]
                Scenario.simple_fresh)))) = 2%nat.
Proof.
  assert (H : Forall no_shared_counter
                [Scenario.simple_tick_with Scenario.db_sync_no_pss;
                 Scenario.simple_tick_with Scenario.db_sync_no_pss])
    by (repeat constructor).
  split; [exact H|]. split; [reflexivity|]. split.
  - apply (simple_monitor_needs_shared_counter
             (Scenario.running Scenario.db_sync_no_pss)
             [Scenario.simple_tick_with Scenario.db_sync_no_pss;
              Scenario.simple_tick_with Scenario.db_sync_no_pss]
             Scenario.simple_fresh (fun _ => true) (fun _ => true) H).
    reflexivity.
  - reflexivity.
Defined.

(* ================================================================== *)
(** * Further properties: the size report of create-db-sync-stats *)
(* ================================================================== *)

Lemma setitem_keys (k v : string) (d : Stats.pydict) :
  map fst (Stats.setitem k v d)
  = if existsb (String.eqb k) (map fst d) then map fst d else map fst d ++ [k].
Proof.
  induction d as [|[k' v'] d IH]; simpl; [reflexivity|].
  rewrite (String.eqb_sym k k').
  destruct (String.eqb k' k) eqn:E; simpl.
  - apply String.eqb_eq in E. subst. reflexivity.
  - rewrite IH. destruct (existsb (String.eqb k) (map fst d)); reflexivity.
Qed.



Lemma setitem_keeps (k v : string) (d : Stats.pydict) :
  NoDup (map fst d) ->
  NoDup (map fst (Stats.setitem k v d))
  /\ forall k', In k' (map fst d) -> In k' (map fst (Stats.setitem k v d)).
Proof.
  intros Hn. rewrite setitem_keys.
  destruct (existsb (String.eqb k) (map fst d)) eqn:E; [auto|].
  split.
  - assert (Hk : ~ In k (map fst d)).
    { intros Hin. assert (existsb (String.eqb k) (map fst d) = true).
      { apply existsb_exists. exists k. split; [exact Hin | apply String.eqb_refl]. }
      congruence. }
    clear E. induction (map fst d) as [|x l IH]; simpl.
    + constructor; [intros [] | constructor].
    + inversion Hn; subst. constructor.
      * rewrite in_app_iff. simpl. intros [H|[H|[]]]; [contradiction|].
        subst. apply Hk. simpl. auto.
      * apply IH; [assumption|]. intros H. apply Hk. simpl. auto.
  - intros k' H. apply in_or_app. auto.
Qed.

Lemma update_keeps (d : Stats.pydict) (items : list (string * string)) :
  NoDup (map fst d) ->
  NoDup (map fst (Stats.update d items))
  /\ forall k, In k (map fst d) -> In k (map fst (Stats.update d items)).
Proof.
  unfold Stats.update. revert d.
  induction items as [|[k v] items IH]; intros d Hn; simpl; [auto|].
  destruct (setitem_keeps k v d Hn) as [Hn1 Hk1].
  destruct (IH _ Hn1) as [Hn2 Hk2]. split; [exact Hn2|]. auto.
Qed.

Lemma pop_missing (k : string) (d : Stats.pydict) :
  ~ In k (map fst d) -> Stats.pop k d = None.
Proof.
  induction d as [|[k' v] d IH]; simpl; intros H; [reflexivity|].
  destruct (String.eqb k' k) eqn:E.
  - apply String.eqb_eq in E. tauto.
  - rewrite IH by tauto. reflexivity.
Qed.

Lemma pop_present (k : string) (d : Stats.pydict) :
  NoDup (map fst d) -> In k (map fst d) ->
  exists v rest, Stats.pop k d = Some (v, rest) /\ ~ In k (map fst rest).
Proof.
  induction d as [|[k' v] d IH]; simpl; intros Hn Hin; [contradiction|].
  inversion Hn as [|? ? Hk Hn']; subst.
  destruct (String.eqb k' k) eqn:E.
  - apply String.eqb_eq in E. subst. exists v, d. auto.
  - apply String.eqb_neq in E. destruct Hin as [Hin|Hin]; [contradiction|].
    destruct (IH Hn' Hin) as [x [rest [Hp Hr]]]. rewrite Hp.
    exists x, ((k', v) :: rest). split; [reflexivity|]. simpl. tauto.
Qed.



(** X18: [write_size_report] removes the [__database__] entry from the
    dict it is given.  For the dict built by
    [fetch_db_and_table_sizes] the first call always succeeds, and a
    second call with the same dict raises [KeyError] after writing only
    the database line, leaving the dict as it is. *)
Theorem size_report_consumes_the_database_entry (db_size dbname dbname' : string)
  (rows : list (string * string)) :
  let first := Stats.write_size_report
                 (Stats.fetch_db_and_table_sizes db_size rows) dbname in
  snd (fst first) = Stats.Written
  /\ ~ In "__database__" (map fst (snd first))
  /\ Stats.write_size_report (snd first) dbname'
     = ([[Py.FLit "Database: "; Py.FLit dbname'; Py.FLit Stats.newline]],
        Stats.KeyError, snd first).
Proof.
  intros first. unfold first, Stats.write_size_report, Stats.fetch_db_and_table_sizes.
  assert (Hd : NoDup (map fst [("__database__", db_size)]))
    by (simpl; constructor; [intros [] | constructor]).
  destruct (update_keeps [("__database__", db_size)] (Stats.update [] rows) Hd)
    as [Hn Hk].
  destruct (pop_present "__database__" _ Hn (Hk _ (or_introl eq_refl)))
    as [v [rest [Hp Hr]]].
  rewrite Hp. simpl. rewrite (pop_missing _ _ Hr). auto.
Qed.

(* ================================================================== *)
(** * Further properties: fields the platform does not expose *)
(* ================================================================== *)



(** X21: db-sync-process-monitor puts the number zero where psutil has
    no such field: whenever its extractors deliver a sample, each of
    [uss], [pss], [swap], [shared], [children_user], [children_system]
    and [iowait] that the platform does not expose is extracted as 0.0. *)
Theorem monitor_defaults_absent_fields_to_zero (p : Psutil.Process)
  (m : Monitor.mem_details) (c : Monitor.cpu_details)
  (mi : Psutil.pmem) (mfi : Psutil.pfullmem) (times : Psutil.pcputimes) :
  Monitor.get_memory_details p = Some m ->
  Monitor.get_cpu_details p = Some c ->
  Psutil.memory_info p = Py.Ok mi ->
  Psutil.memory_full_info p = Py.Ok mfi ->
  Psutil.cpu_times p = Py.Ok times ->
  (Psutil.uss mfi = None -> Monitor.d_uss m = 0%float)
  /\ (Psutil.pss mfi = None -> Monitor.d_pss m = 0%float)
  /\ (Psutil.swap mfi = None -> Monitor.d_swap m = 0%float)
  /\ (Psutil.shared mi = None -> Monitor.d_shared m = 0%float)
  /\ (Psutil.children_user times = None -> Monitor.d_children_user c = 0%float)
  /\ (Psutil.children_system times = None -> Monitor.d_children_system c = 0%float)
  /\ (Psutil.iowait times = None -> Monitor.d_iowait c = 0%float).
Proof.
  unfold Monitor.get_memory_details, Monitor.get_cpu_details.
  intros Hm Hc Ei Ef Et. rewrite Ei, Ef in Hm. rewrite Et in Hc. simpl in Hm, Hc.
  destruct (Psutil.cpu_percent p); simpl in Hc; [|discriminate].
  destruct (Psutil.num_ctx_switches p); simpl in Hc; [|discriminate].
  inversion Hm; inversion Hc; subst; simpl.
  repeat split; intros A; rewrite A; reflexivity.
Qed.

(** The same for a process that has [uss] only. *)
Lemma monitor_defaults_absent_fields_to_zero_witness :
  exists m c mi mfi times,
    Monitor.get_memory_details Scenario.db_sync_no_pss = Some m
    /\ Monitor.get_cpu_details Scenario.db_sync_no_pss = Some c
    /\ Psutil.memory_info Scenario.db_sync_no_pss = Py.Ok mi
    /\ Psutil.memory_full_info Scenario.db_sync_no_pss = Py.Ok mfi
    /\ Psutil.cpu_times Scenario.db_sync_no_pss = Py.Ok times
    /\ (Psutil.uss mfi = None -> Monitor.d_uss m = 0%float)
    /\ (Psutil.pss mfi = None -> Monitor.d_pss m = 0%float)
    /\ (Psutil.swap mfi = None -> Monitor.d_swap m = 0%float)
    /\ (Psutil.shared mi = None -> Monitor.d_shared m = 0%float)
    /\ (Psutil.children_user times = None -> Monitor.d_children_user c = 0%float)
    /\ (Psutil.children_system times = None -> Monitor.d_children_system c = 0%float)
    /\ (Psutil.iowait times = None -> Monitor.d_iowait c = 0%float).
Proof.
  do 5 eexists.
  split; [reflexivity|]. split; [reflexivity|]. split; [reflexivity|].
  split; [reflexivity|]. split; [reflexivity|].
  apply (monitor_defaults_absent_fields_to_zero Scenario.db_sync_no_pss);
    reflexivity.
Defined.

(* ================================================================== *)
(** * Further properties: from the sample to the plot *)
(* ================================================================== *)

(** X22: a tick that has the marker [slot] and finds a process on which
    all psutil calls succeed appends one memory row and one cpu row
    under that marker and the configured tag: the sizes are the byte
    counts divided by 1024**2 (0 for a field psutil lacks), the cpu
    fields are the psutil values, the context switches the sum of
    voluntary and involuntary ones.  Both rows are found by
    [load_memory] and [load_cpu] for that tag, with the resident size
    in MB and the cpu percentage as values, also when the tick then
    raises for want of a sync percent. *)
Theorem sample_is_stored_and_loaded (cfg : Monitor.Config) (w : Monitor.World)
  (st : Monitor.State) (slot : Z) (p : Psutil.Process)
  (mi : Psutil.pmem) (mfi : Psutil.pfullmem) (times : Psutil.pcputimes)
  (percent : float) (ctx : Psutil.pctxsw) :
  fst (Monitor.get_slot_no (Monitor.pg_slot w)) = Some slot ->
  Monitor.get_process (Monitor.processes w) = Some p ->
  Psutil.memory_info p = Py.Ok mi ->
  Psutil.memory_full_info p = Py.Ok mfi ->
  Psutil.cpu_times p = Py.Ok times ->
  Psutil.cpu_percent p = Py.Ok percent ->
  Psutil.num_ctx_switches p = Py.Ok ctx ->
  let d' := Monitor.db (Monitor.state_of (Monitor.tick cfg w st)) in
  let ver := Monitor.get_db_sync_version cfg in
  let mb := fun bytes => Some (Py.truediv_int bytes (1024 ^ 2)) in
  Monitor.memory_metrics d'
  = Monitor.memory_metrics (Monitor.db st)
    ++ [{| Monitor.m_slot_no := slot;
           Monitor.m_rss := mb (Psutil.rss mi);
           Monitor.m_vms := mb (Psutil.vms mi);
           Monitor.m_uss := mb (Psutil.getattr_default (Psutil.uss mfi) 0);
           Monitor.m_pss := mb (Psutil.getattr_default (Psutil.pss mfi) 0);
           Monitor.m_swap := mb (Psutil.getattr_default (Psutil.swap mfi) 0);
           Monitor.m_shared := mb (Psutil.getattr_default (Psutil.shared mi) 0);
           Monitor.m_version := ver |}]
  /\ Monitor.cpu_metrics d'
     = Monitor.cpu_metrics (Monitor.db st)
       ++ [{| Monitor.c_slot_no := slot;
              Monitor.c_cpu_percent := Some percent;
              Monitor.c_user_time := Some (Psutil.user times);
              Monitor.c_system_time := Some (Psutil.system times);
              Monitor.c_children_user :=
                Some (Psutil.getattr_default (Psutil.children_user times) 0%float);
              Monitor.c_children_system :=
                Some (Psutil.getattr_default (Psutil.children_system times) 0%float);
              Monitor.c_iowait :=
                Some (Psutil.getattr_default (Psutil.iowait times) 0%float);
              Monitor.c_ctx_switches :=
                Some (Psutil.voluntary ctx + Psutil.involuntary ctx);
              Monitor.c_interrupts := None;
              Monitor.c_version := ver |}]
  /\ In (slot, mb (Psutil.rss mi), ver) (Monitor.load_memory [ver] d')
  /\ In (slot, Some percent, ver) (Monitor.load_cpu [ver] d').
Proof.
  intros Hs Hp Ei Ef Et Ec En d' ver mb.
  pose proof (monitor_tick_appends cfg w st) as H. simpl in H.
  rewrite Hs, Hp in H. fold d' in H. fold ver in H.
  unfold Monitor.get_memory_details, Monitor.get_cpu_details in H.
  rewrite Ei, Ef, Et, Ec, En in H. simpl in H.
  destruct H as [Hm [Hc _]].
  assert (Tv : tagged [ver] ver = true)
    by (unfold tagged; simpl; rewrite String.eqb_refl; reflexivity).
  split; [exact Hm|]. split; [exact Hc|]. split.
  - eapply Permutation_in; [apply Permutation_sym, load_memory_perm|].
    apply in_map_iff. eexists. split; cycle 1.
    + apply filter_In. split;
        [rewrite Hm; apply in_or_app; right; left; reflexivity | exact Tv].
    + reflexivity.
  - eapply Permutation_in; [apply Permutation_sym, load_cpu_perm|].
    apply in_map_iff. eexists. split; cycle 1.
    + apply filter_In. split;
        [rewrite Hc; apply in_or_app; right; left; reflexivity | exact Tv].
    + reflexivity.
Qed.

(** The same for the tick of the scenario whose sync-percent query
    fails. *)
Lemma sample_is_stored_and_loaded_witness :
  exists mi mfi times percent ctx,
    fst (Monitor.get_slot_no (Monitor.pg_slot Scenario.sync_failed_tick)) = Some 5
    /\ Monitor.get_process (Monitor.processes Scenario.sync_failed_tick)
       = Some Scenario.db_sync_no_pss
    /\ Psutil.memory_info Scenario.db_sync_no_pss = Py.Ok mi
    /\ Psutil.memory_full_info Scenario.db_sync_no_pss = Py.Ok mfi
    /\ Psutil.cpu_times Scenario.db_sync_no_pss = Py.Ok times
    /\ Psutil.cpu_percent Scenario.db_sync_no_pss = Py.Ok percent
    /\ Psutil.num_ctx_switches Scenario.db_sync_no_pss = Py.Ok ctx
    /\ In (5, Some (Py.truediv_int (Psutil.rss mi) (1024 ^ 2)), Scenario.ver)
         (Monitor.load_memory [Scenario.ver]
            (Monitor.db (Monitor.state_of
               (Monitor.tick Scenario.cfg Scenario.sync_failed_tick Scenario.fresh))))
    /\ In (5, Some percent, Scenario.ver)
         (Monitor.load_cpu [Scenario.ver]
            (Monitor.db (Monitor.state_of
               (Monitor.tick Scenario.cfg Scenario.sync_failed_tick Scenario.fresh)))).
Proof.
  do 5 eexists.
  split; [reflexivity|]. split; [reflexivity|]. split; [reflexivity|].
  split; [reflexivity|]. split; [reflexivity|]. split; [reflexivity|].
  split; [reflexivity|].
  apply (sample_is_stored_and_loaded Scenario.cfg Scenario.sync_failed_tick
           Scenario.fresh 5 Scenario.db_sync_no_pss _ _ _ _ _
           eq_refl eq_refl eq_refl eq_refl eq_refl eq_refl eq_refl).
Defined.

Lemma sorter_insert_last {A K : Type} (key : A -> K) (leb : K -> K -> bool)
  (x : A) (l : list A) :
  Forall (fun y => leb (key x) (key y) = false) l ->
  Sql.sorter_insert key leb x l = l ++ [x].
Proof.
  induction 1 as [|y l Hy HF IH]; simpl; [reflexivity|].
  rewrite Hy, IH. reflexivity.
Qed.

(** Rows whose keys each come strictly after the keys of the earlier
    rows leave the sorter in reverse order. *)
Lemma order_by_reverses {A K : Type} (key : A -> K) (leb : K -> K -> bool) (l : list A) :
  StronglySorted (fun a b => leb (key a) (key b) = false) l ->
  Sql.order_by key leb l = rev l.
Proof.
  induction 1 as [|x l Hs IH Hx]; simpl; [reflexivity|].
  rewrite IH. apply sorter_insert_last.
  apply Forall_rev. exact Hx.
Qed.

Lemma distinct_scan_In {A K : Type} (key : A -> K) (eqb : K -> K -> bool)
  (seen : list K) (l : list A) (r : A) :
  In r (Sql.distinct_scan key eqb seen l) -> In r l.
Proof.
  revert seen. induction l as [|x l IH]; intros seen; simpl; [tauto|].
  destruct (existsb (eqb (key x)) seen); simpl.
  - intros H. right. eapply IH; exact H.
  - intros [H|H]; [auto|]. right. eapply IH; exact H.
Qed.

Lemma distinct_scan_sorted {A K : Type} (key : A -> K) (eqb : K -> K -> bool)
  (R : A -> A -> Prop) (seen : list K) (l : list A) :
  StronglySorted R l -> StronglySorted R (Sql.distinct_scan key eqb seen l).
Proof.
  intros H. revert seen. induction H as [|x l Hs IH Hx]; intros seen; simpl.
  - constructor.
  - destruct (existsb (eqb (key x)) seen); [apply IH|].
    constructor; [apply IH|].
    rewrite Forall_forall in *. intros y Hy. apply Hx.
    eapply distinct_scan_In; exact Hy.
Qed.

Lemma distinct_scan_tags (seen : list string) (l : list Monitor.version_row) :
  map Monitor.v_version (Sql.distinct_scan Monitor.v_version String.eqb seen l)
  = first_appearances seen (map Monitor.v_version l).
Proof.
  revert seen. induction l as [|x l IH]; intros seen; simpl; [reflexivity|].
  destruct (existsb (String.eqb (Monitor.v_version x)) seen); simpl; rewrite IH;
    reflexivity.
Qed.

(** X23: when the timestamps of the version records grow strictly in
    the order of insertion (a clock that neither repeats nor goes
    back), the version query of [run] and [load_versions] lists the
    tags in the reverse of the order in which they first appeared in
    the log: the tag that was introduced last comes first. *)
Theorem versions_are_listed_latest_introduced_first (d : Monitor.Db) :
  timestamps_increase d ->
  Monitor.distinct_versions d
  = rev (first_appearances [] (map Monitor.v_version (Monitor.db_sync_version d)))
  /\ Regenerate.load_versions d
     = rev (first_appearances [] (map Monitor.v_version (Monitor.db_sync_version d))).
Proof.
  intros H.
  assert (E : Monitor.distinct_versions d
              = rev (first_appearances [] (map Monitor.v_version (Monitor.db_sync_version d)))).
  { unfold Monitor.distinct_versions, Sql.select_distinct.
    rewrite order_by_reverses.
    - rewrite map_rev, distinct_scan_tags. reflexivity.
    - apply distinct_scan_sorted. exact H. }
  split; [exact E|]. unfold Regenerate.load_versions. exact E.
Qed.

(** The same for the log in which v1 ran, then v2, then v1 again. *)
Lemma versions_are_listed_latest_introduced_first_witness :
  timestamps_increase Scenario.resumed_v1
  /\ Monitor.distinct_versions Scenario.resumed_v1
     = rev (first_appearances []
              (map Monitor.v_version (Monitor.db_sync_version Scenario.resumed_v1)))
  /\ Regenerate.load_versions Scenario.resumed_v1
     = rev (first_appearances []
              (map Monitor.v_version (Monitor.db_sync_version Scenario.resumed_v1))).
Proof.
  assert (H : timestamps_increase Scenario.resumed_v1).
  { unfold timestamps_increase. simpl.
    repeat (constructor; [|repeat (constructor; try reflexivity)]).
    constructor. }
  split; [exact H|].
  apply (versions_are_listed_latest_introduced_first Scenario.resumed_v1 H).
Defined.
